(** * bot.py: state store, moderation flags, chat histories and the
      recovery-report lifecycle

    A shallow embedding of the state-handling code of [src/bot.py].

    - The module-level dict [STATE] is the record [State]; a key that may be
      absent from the dict ([STATE.get(k, d)], [STATE.setdefault(k, d)]) is an
      [option] field.
    - A report is the dict literal of [_create_report]: a record with its
      eight keys.  Reports are mutated in place through the list that holds
      them, so an update is a list update at the position found.
    - The process state is a [World]: the in-memory [STATE] plus the files
      on disk, so that [save_state] is visible.
    - A Python [str] is a [string]: ASCII text as it is, other text as its
      UTF-8 bytes.
    - The state file is written and read by the JSON codec below, which
      follows [json.dump(..., ensure_ascii=False, indent=2)] and
      [json.load] on the documents the state holds.
    - What else the Python runtime supplies ([str.strip], [int], [str],
      [json.loads] on a response body) is the interface [PyRuntime]; what
      the environment draws ([uuid.uuid4], [datetime.utcnow]) is an
      argument of the operation that uses it.
    - The Telegram transport is output only and is taken to succeed: a
      handler returns what it answers next to the new world.  No operation
      below awaits between its first read and its last write of [STATE], so
      each one is a single step of the process. *)

From Stdlib Require Import Ascii PrimFloat DecimalString DecimalZ DecimalN DecimalPos.
From Stdlib Require DecimalFacts.
From stdpp Require Import gmap strings list fin_maps pretty.

Local Open Scope Z_scope.

(** ** Strings *)

(** [s.split(sep)] for a one-character separator. *)
Fixpoint str_split (sep : ascii) (s : string) : list string :=
  match s with
  | EmptyString => [EmptyString]
  | String c s' =>
      if Ascii.eqb c sep then EmptyString :: str_split sep s'
      else match str_split sep s' with
           | h :: t => String c h :: t
           | [] => [String c EmptyString]
           end
  end.

(** [s.split(sep, 1)]: at most one cut, at the first separator. *)
Fixpoint str_split1 (sep : ascii) (s : string) : list string :=
  match s with
  | EmptyString => [EmptyString]
  | String c s' =>
      if Ascii.eqb c sep then [EmptyString; s']
      else match str_split1 sep s' with
           | h :: t => String c h :: t
           | [] => [String c EmptyString]
           end
  end.

(** [l[start:]] with Python's treatment of a negative or too large start. *)
Definition py_slice_from {A} (start : Z) (l : list A) : list A :=
  let n := Z.of_nat (length l) in
  let s := if start <? 0 then Z.max 0 (start + n) else Z.min start n in
  drop (Z.to_nat s) l.

(** [l.remove(x)]: the first occurrence only (the callers test [x in l]
    first, so the [ValueError] of an absent [x] is never raised). *)
Fixpoint list_remove (x : Z) (l : list Z) : list Z :=
  match l with
  | [] => []
  | y :: t => if bool_decide (y = x) then t else y :: list_remove x t
  end.

Definition nl : string := String (ascii_of_nat 10) EmptyString.

(** ** Decoded JSON *)

#[warnings="-register-all"]
Inductive value : Type :=
  | VNull
  | VBool (b : bool)
  | VInt (z : Z)
  | VFloat (f : float)
  | VStr (s : string)
  | VList (l : list value)
  | VDict (d : gmap string value).

(** Python truth value of a decoded JSON value. *)
Definition truthy (v : value) : bool :=
  match v with
  | VNull => false
  | VBool b => b
  | VInt z => negb (z =? 0)
  | VFloat f => negb (PrimFloat.eqb f 0%float)
  | VStr s => negb (String.eqb s "")
  | VList l => match l with [] => false | _ => true end
  | VDict d => match map_to_list d with [] => false | _ => true end
  end.

(** [d.get(k)]: [None] for an absent key. *)
Definition dict_get (k : string) (d : gmap string value) : value :=
  default VNull (d !! k).

(** [a or b]. *)
Definition py_or (a b : value) : value := if truthy a then a else b.

Definition is_str (v : value) : bool :=
  match v with VStr _ => true | _ => false end.

(** ** The state document *)

Record HistoryEntry := { role : string; content : string }.

Record Report := {
  r_id : string;
  r_user_id : Z;
  r_user_name : string;
  r_channel_url : string;
  r_created_at : string;
  r_status : string;
  r_response_by : option Z;
  r_response_at : option string }.

Record State := {
  moderated_chats : option (list Z);
  histories : option (gmap string (list HistoryEntry));
  reports : option (list Report) }.

Definition DEFAULT_STATE : State :=
  {| moderated_chats := Some []; histories := Some ∅; reports := Some [] |}.

Global Instance HistoryEntry_eq_dec : EqDecision HistoryEntry.
Proof. solve_decision. Defined.
Global Instance Report_eq_dec : EqDecision Report.
Proof. solve_decision. Defined.
Global Instance State_eq_dec : EqDecision State.
Proof. solve_decision. Defined.

(** The three collections as the code reads them, [STATE.get(k, default)]. *)
Definition chats_of (st : State) : list Z := default [] (moderated_chats st).
Definition histories_of (st : State) : gmap string (list HistoryEntry) :=
  default ∅ (histories st).
Definition reports_of (st : State) : list Report := default [] (reports st).

Definition set_moderated_chats (l : list Z) (st : State) : State :=
  {| moderated_chats := Some l; histories := histories st; reports := reports st |}.
Definition set_histories (h : gmap string (list HistoryEntry)) (st : State) : State :=
  {| moderated_chats := moderated_chats st; histories := Some h; reports := reports st |}.
Definition set_reports (l : list Report) (st : State) : State :=
  {| moderated_chats := moderated_chats st; histories := histories st; reports := Some l |}.

(** ** The JSON codec

    [json.dump(state, f, ensure_ascii=False, indent=2)] and [json.load(f)],
    on the documents the state file holds: objects, arrays, strings,
    integers, booleans and [null].  A JSON text is read into a [json]
    tree whose objects keep their pairs in the order of the text.  The
    state holds no float: a number with a fraction or an exponent is not
    read.  The text of the file is taken to be UTF-8, as written. *)

#[warnings="-register-all"]
Inductive json :=
  | JNull
  | JBool (b : bool)
  | JInt (z : Z)
  | JStr (s : string)
  | JArr (items : list json)
  | JObj (members : list (string * json)).

(** *** Writing *)

Definition quote_char : ascii := ascii_of_nat 34.
Definition backslash : ascii := ascii_of_nat 92.

Definition hex_digit (n : nat) : ascii :=
  if (n <? 10)%nat then ascii_of_nat (48 + n) else ascii_of_nat (87 + n).

(** What the encoder writes for one character of a string: the two-letter
    escapes, [\u00xx] for the other control characters, and every other
    character as it is ([ensure_ascii=False]). *)
Definition escape_char (c : ascii) : string :=
  let n := nat_of_ascii c in
  if (n =? 34)%nat then String backslash (String quote_char "")
  else if (n =? 92)%nat then String backslash (String backslash "")
  else if (n =? 10)%nat then String backslash "n"
  else if (n =? 13)%nat then String backslash "r"
  else if (n =? 9)%nat then String backslash "t"
  else if (n =? 8)%nat then String backslash "b"
  else if (n =? 12)%nat then String backslash "f"
  else if (n <? 32)%nat
       then String backslash
              ("u00" +:+ String (hex_digit (n / 16)) (String (hex_digit (n mod 16)) ""))
  else String c "".

Fixpoint escape (s : string) : string :=
  match s with
  | EmptyString => ""
  | String c s' => escape_char c +:+ escape s'
  end.

Definition json_string (s : string) : string :=
  String quote_char (escape s +:+ String quote_char "").

(** An integer as [int.__repr__] prints it: decimal digits, after a minus
    sign for a negative number. *)
Definition json_int (z : Z) : string := NilZero.string_of_int (Z.to_int z).

Fixpoint spaces (n : nat) : string :=
  match n with O => "" | S n => String " " (spaces n) end.

(** The line break before an item at nesting depth [level], [indent=2]. *)
Definition newline_indent (level : nat) : string := nl +:+ spaces (2 * level).

Fixpoint join_items (l : list string) : string :=
  match l with
  | [] => ""
  | [x] => x
  | x :: l' => x +:+ "," +:+ join_items l'
  end.

Fixpoint json_write (level : nat) (j : json) : string :=
  match j with
  | JNull => "null"
  | JBool b => if b then "true" else "false"
  | JInt z => json_int z
  | JStr s => json_string s
  | JArr items =>
      match items with
      | [] => "[]"
      | _ =>
          "[" +:+
          join_items (map (λ x, newline_indent (S level) +:+ json_write (S level) x) items) +:+
          newline_indent level +:+ "]"
      end
  | JObj members =>
      match members with
      | [] => "{}"
      | _ =>
          "{" +:+
          join_items (map (λ kv, newline_indent (S level) +:+ json_string (fst kv) +:+ ": " +:+
                                  json_write (S level) (snd kv)) members) +:+
          newline_indent level +:+ "}"
      end
  end.

(** *** Reading *)

Definition is_ws (c : ascii) : bool :=
  let n := nat_of_ascii c in
  (n =? 32)%nat || (n =? 9)%nat || (n =? 10)%nat || (n =? 13)%nat.

Fixpoint skip_ws (s : string) : string :=
  match s with
  | String c s' => if is_ws c then skip_ws s' else s
  | EmptyString => ""
  end.

Definition is_digit (c : ascii) : bool :=
  let n := nat_of_ascii c in (48 <=? n)%nat && (n <=? 57)%nat.

Definition hex_value (c : ascii) : option N :=
  let n := nat_of_ascii c in
  if (48 <=? n)%nat && (n <=? 57)%nat then Some (N.of_nat (n - 48))
  else if (97 <=? n)%nat && (n <=? 102)%nat then Some (N.of_nat (n - 87))
  else if (65 <=? n)%nat && (n <=? 70)%nat then Some (N.of_nat (n - 55))
  else None.

Definition hex4 (h1 h2 h3 h4 : ascii) : option N :=
  match hex_value h1, hex_value h2, hex_value h3, hex_value h4 with
  | Some a, Some b, Some c, Some d => Some (((a * 16 + b) * 16 + c) * 16 + d)%N
  | _, _, _, _ => None
  end.

(** The UTF-8 bytes of the character with code [n]. *)
Definition utf8_of_code (n : N) : string :=
  if (n <? 128)%N then String (ascii_of_N n) ""
  else if (n <? 2048)%N
       then String (ascii_of_N (192 + n / 64))
           (String (ascii_of_N (128 + n mod 64)) "")
  else if (n <? 65536)%N
       then String (ascii_of_N (224 + n / 4096))
           (String (ascii_of_N (128 + (n / 64) mod 64))
           (String (ascii_of_N (128 + n mod 64)) ""))
  else String (ascii_of_N (240 + n / 262144))
      (String (ascii_of_N (128 + (n / 4096) mod 64))
      (String (ascii_of_N (128 + (n / 64) mod 64))
      (String (ascii_of_N (128 + n mod 64)) ""))).

(** The two halves of a surrogate pair, [\ud800]-[\udbff] and
    [\udc00]-[\udfff]. *)
Definition high_surrogate (n : N) : bool := (55296 <=? n)%N && (n <? 56320)%N.
Definition low_surrogate (n : N) : bool := (56320 <=? n)%N && (n <? 57344)%N.

Definition simple_escape (e : ascii) : option ascii :=
  let n := nat_of_ascii e in
  if (n =? 34)%nat then Some quote_char
  else if (n =? 92)%nat then Some backslash
  else if (n =? 47)%nat then Some "/"%char
  else if (n =? 98)%nat then Some (ascii_of_nat 8)
  else if (n =? 102)%nat then Some (ascii_of_nat 12)
  else if (n =? 110)%nat then Some (ascii_of_nat 10)
  else if (n =? 114)%nat then Some (ascii_of_nat 13)
  else if (n =? 116)%nat then Some (ascii_of_nat 9)
  else None.

(** The string that ends at the next unescaped quote, and what follows
    it; [s] starts after the opening quote.  A raw control character, a
    bad escape and a missing closing quote are errors.  An escaped
    surrogate pair is the one character it encodes; a surrogate on its own
    gives a [str] that is no UTF-8 text, and is not read. *)
Fixpoint read_string (s : string) : option (string * string) :=
  match s with
  | EmptyString => None
  | String c s' =>
      if Ascii.eqb c quote_char then Some ("", s')
      else if Ascii.eqb c backslash then
        match s' with
        | EmptyString => None
        | String e s'' =>
            if Ascii.eqb e "u" then
              match s'' with
              | String h1 (String h2 (String h3 (String h4 s3))) =>
                  match hex4 h1 h2 h3 h4 with
                  | Some n =>
                      if high_surrogate n then
                        match s3 with
                        | String b (String u (String g1 (String g2 (String g3
                            (String g4 s4))))) =>
                            if Ascii.eqb b backslash && Ascii.eqb u "u" then
                              match hex4 g1 g2 g3 g4 with
                              | Some m =>
                                  if low_surrogate m then
                                    match read_string s4 with
                                    | Some (t, rest) =>
                                        Some (utf8_of_code
                                                (65536 + (n - 55296) * 1024 + (m - 56320))
                                              +:+ t, rest)
                                    | None => None
                                    end
                                  else None
                              | None => None
                              end
                            else None
                        | _ => None
                        end
                      else if low_surrogate n then None
                      else
                        match read_string s3 with
                        | Some (t, rest) => Some (utf8_of_code n +:+ t, rest)
                        | None => None
                        end
                  | None => None
                  end
              | _ => None
              end
            else
              match simple_escape e, read_string s'' with
              | Some ch, Some (t, rest) => Some (String ch t, rest)
              | _, _ => None
              end
        end
      else if (nat_of_ascii c <? 32)%nat then None
      else
        match read_string s' with
        | Some (t, rest) => Some (String c t, rest)
        | None => None
        end
  end.

Fixpoint span_digits (s : string) : string * string :=
  match s with
  | String c s' =>
      if is_digit c
      then (String c (span_digits s').1, (span_digits s').2)
      else ("", s)
  | EmptyString => ("", "")
  end.

(** A fraction or an exponent would follow. *)
Definition float_follows (s : string) : bool :=
  match s with
  | String c _ => Ascii.eqb c "." || Ascii.eqb c "e" || Ascii.eqb c "E"
  | EmptyString => false
  end.

(** An integer: an optional minus, then [0] or a digit string that does
    not start with [0].  A number with a fraction or an exponent is a
    float, which no field of the state holds: it is not read. *)
Definition read_int (s : string) : option (Z * string) :=
  let negative := match s with String c _ => Ascii.eqb c "-" | EmptyString => false end in
  let body := match s with
              | String c r => if Ascii.eqb c "-" then r else s
              | EmptyString => s
              end in
  let split := match body with
               | String c r => if Ascii.eqb c "0" then ("0", r) else span_digits body
               | EmptyString => ("", "")
               end in
  if float_follows split.2 then None
  else match NilZero.uint_of_string split.1 with
       | Some d => Some (if negative then - Z.of_uint d else Z.of_uint d, split.2)
       | None => None
       end.

(** [s] starts with [word]: what follows it. *)
Fixpoint after_word (word s : string) : option string :=
  match word with
  | EmptyString => Some s
  | String c word' =>
      match s with
      | String c' s' => if Ascii.eqb c c' then after_word word' s' else None
      | EmptyString => None
      end
  end.

(** The items of an array after its first bracket, up to the closing one;
    [read] reads one value, [n] bounds the number of items. *)
Fixpoint read_items (read : string → option (json * string)) (n : nat) (s : string)
    : option (list json * string) :=
  match n with
  | O => None
  | S n =>
      match read s with
      | Some (v, rest) =>
          match skip_ws rest with
          | String c rest' =>
              if Ascii.eqb c "," then
                match read_items read n rest' with
                | Some (vs, rest'') => Some (v :: vs, rest'')
                | None => None
                end
              else if Ascii.eqb c "]" then Some ([v], rest')
              else None
          | EmptyString => None
          end
      | None => None
      end
  end.

(** The members of an object after its first brace. *)
Fixpoint read_members (read : string → option (json * string)) (n : nat) (s : string)
    : option (list (string * json) * string) :=
  match n with
  | O => None
  | S n =>
      match skip_ws s with
      | String q s1 =>
          if Ascii.eqb q quote_char then
            match read_string s1 with
            | Some (k, s2) =>
                match skip_ws s2 with
                | String colon s3 =>
                    if Ascii.eqb colon ":" then
                      match read s3 with
                      | Some (v, rest) =>
                          match skip_ws rest with
                          | String c rest' =>
                              if Ascii.eqb c "," then
                                match read_members read n rest' with
                                | Some (kvs, rest'') => Some ((k, v) :: kvs, rest'')
                                | None => None
                                end
                              else if Ascii.eqb c "}" then Some ([(k, v)], rest')
                              else None
                          | EmptyString => None
                          end
                      | None => None
                      end
                    else None
                | EmptyString => None
                end
            | None => None
            end
          else None
      | EmptyString => None
      end
  end.

(** One value, after any white space, and what follows it.  [fuel] bounds
    the nesting depth and the number of items of a container. *)
Fixpoint read_value (fuel : nat) (s : string) : option (json * string) :=
  match fuel with
  | O => None
  | S fuel =>
      match skip_ws s with
      | EmptyString => None
      | String c rest =>
          if Ascii.eqb c "n" then option_map (pair JNull) (after_word "ull" rest)
          else if Ascii.eqb c "t" then option_map (pair (JBool true)) (after_word "rue" rest)
          else if Ascii.eqb c "f" then option_map (pair (JBool false)) (after_word "alse" rest)
          else if Ascii.eqb c quote_char then
            match read_string rest with
            | Some (t, rest') => Some (JStr t, rest')
            | None => None
            end
          else if Ascii.eqb c "[" then
            match skip_ws rest with
            | String c' rest' =>
                if Ascii.eqb c' "]" then Some (JArr [], rest')
                else match read_items (read_value fuel) fuel rest with
                     | Some (items, rest'') => Some (JArr items, rest'')
                     | None => None
                     end
            | EmptyString => None
            end
          else if Ascii.eqb c "{" then
            match skip_ws rest with
            | String c' rest' =>
                if Ascii.eqb c' "}" then Some (JObj [], rest')
                else match read_members (read_value fuel) fuel rest with
                     | Some (members, rest'') => Some (JObj members, rest'')
                     | None => None
                     end
            | EmptyString => None
            end
          else if Ascii.eqb c "-" || is_digit c then
            match read_int (String c rest) with
            | Some (z, rest') => Some (JInt z, rest')
            | None => None
            end
          else None
      end
  end.

(** [json.loads(text)]: one value, with nothing but white space after it. *)
Definition json_read (text : string) : option json :=
  match read_value (S (String.length text)) text with
  | Some (j, rest) => if String.eqb (skip_ws rest) "" then Some j else None
  | None => None
  end.

(** *** The state document as JSON *)

Definition json_of_option {A} (f : A → json) (o : option A) : json :=
  match o with Some x => f x | None => JNull end.

Definition json_of_entry (e : HistoryEntry) : json :=
  JObj [("role", JStr (role e)); ("content", JStr (content e))].

Definition json_of_report (r : Report) : json :=
  JObj [("id", JStr (r_id r));
        ("user_id", JInt (r_user_id r));
        ("user_name", JStr (r_user_name r));
        ("channel_url", JStr (r_channel_url r));
        ("created_at", JStr (r_created_at r));
        ("status", JStr (r_status r));
        ("response_by", json_of_option JInt (r_response_by r));
        ("response_at", json_of_option JStr (r_response_at r))].

Definition json_of_history (kv : string * list HistoryEntry) : string * json :=
  (kv.1, JArr (json_of_entry <$> kv.2)).

(** The keys the dict holds, in the order of [DEFAULT_STATE]; the chats of
    [histories] in the order of the map.  Python writes the keys of a dict
    in the order they were inserted; that order is not part of a [State],
    as the equality of dicts ignores it. *)
Definition json_of_state (st : State) : json :=
  JObj (match moderated_chats st with
        | Some l => [("moderated_chats", JArr (JInt <$> l))]
        | None => []
        end ++
        match histories st with
        | Some h => [("histories", JObj (json_of_history <$> map_to_list h))]
        | None => []
        end ++
        match reports st with
        | Some l => [("reports", JArr (json_of_report <$> l))]
        | None => []
        end).

(** [d.get(k)] on the pairs of an object: the last pair with the key is
    the one the dict keeps. *)
Fixpoint member (k : string) (l : list (string * json)) : option json :=
  match l with
  | [] => None
  | (k', v) :: l' =>
      match member k l' with
      | Some v' => Some v'
      | None => if String.eqb k' k then Some v else None
      end
  end.

Definition keys_among (keys : list string) (l : list (string * json)) : bool :=
  forallb (λ kv, bool_decide (kv.1 ∈ keys)) l.

Definition as_str (j : json) : option string :=
  match j with JStr s => Some s | _ => None end.
Definition as_int (j : json) : option Z :=
  match j with JInt z => Some z | _ => None end.
Definition as_option {A} (f : json → option A) (j : json) : option (option A) :=
  match j with JNull => Some None | _ => Some <$> f j end.
Definition as_list {A} (f : json → option A) (j : json) : option (list A) :=
  match j with JArr l => mapM f l | _ => None end.

Definition entry_of_json (j : json) : option HistoryEntry :=
  match j with
  | JObj l =>
      if keys_among ["role"; "content"] l then
        r ← member "role" l ≫= as_str;
        c ← member "content" l ≫= as_str;
        Some {| role := r; content := c |}
      else None
  | _ => None
  end.

Definition report_of_json (j : json) : option Report :=
  match j with
  | JObj l =>
      if keys_among ["id"; "user_id"; "user_name"; "channel_url"; "created_at"; "status";
                     "response_by"; "response_at"] l then
        id ← member "id" l ≫= as_str;
        user_id ← member "user_id" l ≫= as_int;
        user_name ← member "user_name" l ≫= as_str;
        channel_url ← member "channel_url" l ≫= as_str;
        created_at ← member "created_at" l ≫= as_str;
        status ← member "status" l ≫= as_str;
        response_by ← member "response_by" l ≫= as_option as_int;
        response_at ← member "response_at" l ≫= as_option as_str;
        Some {| r_id := id; r_user_id := user_id; r_user_name := user_name;
                r_channel_url := channel_url; r_created_at := created_at;
                r_status := status; r_response_by := response_by;
                r_response_at := response_at |}
      else None
  | _ => None
  end.

Definition history_of_json (kv : string * json) : option (string * list HistoryEntry) :=
  pair kv.1 <$> as_list entry_of_json kv.2.

Definition histories_of_json (j : json) : option (gmap string (list HistoryEntry)) :=
  match j with
  | JObj l => (λ kvs, list_to_map (reverse kvs)) <$> mapM history_of_json l
  | _ => None
  end.

(** A key of the state: absent, or holding what [f] reads. *)
Definition state_key {A} (k : string) (f : json → option A) (l : list (string * json))
    : option (option A) :=
  match member k l with
  | None => Some None
  | Some j => Some <$> f j
  end.

(** The [State] a JSON value stands for; [None] for a value that is not a
    dict of the three collections with fields of the types the code
    stores. *)
Definition state_of_json (j : json) : option State :=
  match j with
  | JObj l =>
      if keys_among ["moderated_chats"; "histories"; "reports"] l then
        chats ← state_key "moderated_chats" (as_list as_int) l;
        hs ← state_key "histories" histories_of_json l;
        rs ← state_key "reports" (as_list report_of_json) l;
        Some {| moderated_chats := chats; histories := hs; reports := rs |}
      else None
  | _ => None
  end.

(** [json.dump(state, f, ensure_ascii=False, indent=2)]: the text written. *)
Definition json_dump_state (st : State) : string := json_write 0 (json_of_state st).

(** [json.load(f)] on the text [f] holds: [None] when decoding raises, and
    for a document that is not a [State]. *)
Definition json_load_state (text : string) : option State :=
  json_read text ≫= state_of_json.

(** *** What the lemmas on the codec speak of *)

(** The head of [rest] ends a number: it is no digit, and starts neither
    a fraction nor an exponent. *)
Definition ends_number (rest : string) : Prop :=
  match rest with
  | String c _ => is_digit c = false ∧ float_follows rest = false
  | EmptyString => True
  end.



(** ** Configuration and runtime *)

(** The environment variables read at import time, [None] when unset. *)
Record Config := {
  env_STATE_FILE : option string;
  env_HUGGINGFACE_API_KEY : option string;
  env_RECOVERY_CHAT_ID : option string;
  env_RECOVERY_ADMIN_IDS : option string }.

Definition STATE_FILE (cfg : Config) : string := default "state.json" (env_STATE_FILE cfg).
Definition HUGGINGFACE_API_KEY (cfg : Config) : option string := env_HUGGINGFACE_API_KEY cfg.
Definition RECOVERY_CHAT_ID (cfg : Config) : option string := env_RECOVERY_CHAT_ID cfg.
Definition RECOVERY_ADMIN_IDS (cfg : Config) : string := default "" (env_RECOVERY_ADMIN_IDS cfg).

(** What the code takes from Python: [s.strip()], [int(s)] ([None] for a
    [ValueError]), [str(x)] and [json.loads] on a response body ([None]
    for a decoding error). *)
Class PyRuntime := {
  str_strip : string → string;
  int_of_str : string → option Z;
  str_of_value : value → string;
  json_loads : string → option value;
  str_strip_empty : str_strip "" = "" }.

Record World := { STATE : State; disk : gmap string string }.

Definition with_state (st : State) (w : World) : World :=
  {| STATE := st; disk := disk w |}.

Section Bot.
Context `{RT : PyRuntime} (cfg : Config).

(** ** State store *)

(** [save_state(state)]: rewrite the state file with the dumped document.
    The disk is a map from paths to texts: opening the file for writing is
    taken to succeed. *)
Definition save_state (st : State) (fs : gmap string string) : gmap string string :=
  <[STATE_FILE cfg := json_dump_state st]> fs.

(** [load_state()]: create the file from [DEFAULT_STATE] when it is
    missing, then decode what the file holds ([None]: [json.load] raised,
    or the document is not one that [State] describes). *)
Definition load_state (fs : gmap string string) : option State * gmap string string :=
  let fs' := match fs !! STATE_FILE cfg with
             | None => save_state DEFAULT_STATE fs
             | Some _ => fs
             end in
  (fs' !! STATE_FILE cfg ≫= json_load_state, fs').

(** [save_state(STATE)] from inside an operation. *)
Definition persist (w : World) : World :=
  {| STATE := STATE w; disk := save_state (STATE w) (disk w) |}.

(** ** Moderation flags *)

Definition is_chat_moderated (chat_id : Z) (w : World) : bool :=
  bool_decide (chat_id ∈ chats_of (STATE w)).

Definition add_moderated_chat (chat_id : Z) (w : World) : World :=
  let arr := chats_of (STATE w) in
  if bool_decide (chat_id ∈ arr)
  then with_state (set_moderated_chats arr (STATE w)) w
  else persist (with_state (set_moderated_chats (arr ++ [chat_id]) (STATE w)) w).

Definition remove_moderated_chat (chat_id : Z) (w : World) : World :=
  let arr := chats_of (STATE w) in
  if bool_decide (chat_id ∈ arr)
  then persist (with_state (set_moderated_chats (list_remove chat_id arr) (STATE w)) w)
  else with_state (set_moderated_chats arr (STATE w)) w.

(** ** Chat histories *)

(** [push_history(chat_id, role, content, max_len)]; [key] is
    [str(chat_id)].  The entry is appended to the list stored under [key]
    (created empty when missing); when the list is then longer than
    [max_len] the key is rebound to the slice [h[-max_len:]]. *)
Definition push_history (key role content : string) (max_len : Z) (w : World) : World :=
  let hs := histories_of (STATE w) in
  let h := default [] (hs !! key) ++ [{| role := role; content := content |}] in
  let h' := if Z.of_nat (length h) >? max_len then py_slice_from (- max_len) h else h in
  persist (with_state (set_histories (<[key := h']> hs) (STATE w)) w).

Definition history_of (key : string) (w : World) : list HistoryEntry :=
  default [] (histories_of (STATE w) !! key).

(** ** Recovery reports *)

(** The fields of [telegram.User] the code reads. *)
Record User := {
  u_id : Z;
  u_username : option string;
  u_first_name : string;
  u_last_name : option string }.

(** [user.username or f"{user.first_name} {getattr(user, 'last_name', '')}".strip()];
    a [telegram.User] always has the attribute [last_name], [None] when the
    account has none, which the f-string prints as [None]. *)
Definition display_name (user : User) : string :=
  let fallback :=
    str_strip (u_first_name user +:+ " " +:+ default "None" (u_last_name user)) in
  match u_username user with
  | Some s => if String.eqb s "" then fallback else s
  | None => fallback
  end.

(** [_create_report(user, channel_url)]; [uuid_hex] is what
    [uuid.uuid4().hex] draws and [now_iso] what
    [datetime.utcnow().isoformat()] reads. *)
Definition _create_report (user : User) (channel_url uuid_hex now_iso : string)
    (w : World) : Report * World :=
  let report :=
    {| r_id := String.substring 0 8 uuid_hex;
       r_user_id := u_id user;
       r_user_name := display_name user;
       r_channel_url := channel_url;
       r_created_at := now_iso +:+ "Z";
       r_status := "pending";
       r_response_by := None;
       r_response_at := None |} in
  (report,
   persist (with_state (set_reports (reports_of (STATE w) ++ [report]) (STATE w)) w)).

(** [next((r for r in reports if r["id"] == report_id), None)], with the
    position of the report found: the handlers mutate that very dict. *)
Definition find_report (report_id : string) (rs : list Report) : option (nat * Report) :=
  list_find (λ r, r_id r = report_id) rs.

(** [_admin_ids_set()]. *)
Definition _admin_ids_set : gset Z :=
  foldl (λ s p,
           let p := str_strip p in
           if String.eqb p "" then s
           else match int_of_str p with
                | Some n => {[n]} ∪ s
                | None => s
                end)
        ∅ (str_split "," (RECOVERY_ADMIN_IDS cfg)).

(** [admins and clicker_id not in admins]. *)
Definition unauthorized (clicker_id : Z) : bool :=
  negb (bool_decide (_admin_ids_set = ∅)) && negb (bool_decide (clicker_id ∈ _admin_ids_set)).

Record CallbackQuery := {
  q_data : option string;
  q_from_user : User;
  q_message_text : string }.

(** How a callback ends: the alert it shows, or the report as resolved. *)
Inductive CallbackOutcome :=
  | CbIgnored
  | CbUnauthorized
  | CbNotFound
  | CbAlreadyAnswered
  | CbResolved (r : Report).

Definition callback_alert (o : CallbackOutcome) : option string :=
  match o with
  | CbUnauthorized => Some "No estás autorizado para responder este reporte."
  | CbNotFound => Some "Reporte no encontrado."
  | CbAlreadyAnswered => Some "Este reporte ya fue respondido."
  | CbIgnored | CbResolved _ => None
  end.

(** [report["status"] = ...; report["response_by"] = clicker_id;
    report["response_at"] = ...]. *)
Definition resolve (action : string) (clicker_id : Z) (now_iso : string) (r : Report) : Report :=
  {| r_id := r_id r;
     r_user_id := r_user_id r;
     r_user_name := r_user_name r;
     r_channel_url := r_channel_url r;
     r_created_at := r_created_at r;
     r_status := if String.eqb action "approve" then "provided" else "denied";
     r_response_by := Some clicker_id;
     r_response_at := Some (now_iso +:+ "Z") |}.

(** [recovery_callback_handler]; [now_iso] is the clock reading taken when
    the report is resolved. *)
Definition recovery_callback_handler (q : CallbackQuery) (now_iso : string)
    (w : World) : CallbackOutcome * World :=
  match str_split ":" (default "" (q_data q)) with
  | [p0; report_id; action] =>
      if negb (String.eqb p0 "recovery") then (CbIgnored, w)
      else
        let clicker_id := u_id (q_from_user q) in
        if unauthorized clicker_id then (CbUnauthorized, w)
        else
          let rs := reports_of (STATE w) in
          let w1 := with_state (set_reports rs (STATE w)) w in
          match find_report report_id rs with
          | None => (CbNotFound, w1)
          | Some (i, report) =>
              if negb (String.eqb (r_status report) "pending")
              then (CbAlreadyAnswered, w1)
              else
                let report' := resolve action clicker_id now_iso report in
                (CbResolved report',
                 persist (with_state (set_reports (<[i := report']> rs) (STATE w)) w))
          end
  | _ => (CbIgnored, w)
  end.

Definition status_usage : string :=
  "Uso: /recovery_status <report_id>" +:+ nl +:+ "Ej: /recovery_status a1b2c3d4".

Definition status_reply (report : Report) : string :=
  let reply :=
    "Report ID: " +:+ r_id report +:+ nl +:+
    "Usuario: @" +:+ r_user_name report +:+ " (id: " +:+ pretty (r_user_id report) +:+ ")" +:+ nl +:+
    "Canal: " +:+ r_channel_url report +:+ nl +:+
    "Creado: " +:+ r_created_at report +:+ nl +:+
    "Estado: " +:+ r_status report +:+ nl in
  match r_response_by report with
  | Some by_ =>
      if by_ =? 0 then reply
      else reply +:+ "Respondido por: " +:+ pretty by_ +:+ " a las " +:+
           default "None" (r_response_at report) +:+ nl
  | None => reply
  end.

(** [recovery_status]; [text] is [update.message.text]. *)
Definition recovery_status (text : option string) (w : World) : string * World :=
  match str_split1 " " (default "" text) with
  | [_; arg] =>
      if String.eqb (str_strip arg) "" then (status_usage, w)
      else
        let report_id := str_strip arg in
        let rs := reports_of (STATE w) in
        let w1 := with_state (set_reports rs (STATE w)) w in
        match find_report report_id rs with
        | None => ("Reporte no encontrado.", w1)
        | Some (_, report) => (status_reply report, w1)
        end
  | _ => (status_usage, w)
  end.

(** ** Generation client *)

Inductive exn := RuntimeError (msg : string).

(** [isinstance(data, dict) and data.get("error")]. *)
Definition error_field (data : value) : option value :=
  match data with
  | VDict d => if truthy (dict_get "error" d) then Some (dict_get "error" d) else None
  | _ => None
  end.

(** [isinstance(data, list) and len(data) > 0 and isinstance(data[0], dict)]. *)
Definition first_dict (data : value) : option (gmap string value) :=
  match data with
  | VList (VDict d0 :: _) => Some d0
  | _ => None
  end.

(** [hf_generate_text], from the body [text] of the HTTP response on. *)
Definition hf_generate_text (text : string) : exn + value :=
  match HUGGINGFACE_API_KEY cfg with
  | None => inl (RuntimeError "HUGGINGFACE_API_KEY no está configurado en .env")
  | Some key =>
      if String.eqb key ""
      then inl (RuntimeError "HUGGINGFACE_API_KEY no está configurado en .env")
      else
        match json_loads text with
        | None =>
            inl (RuntimeError ("Hugging Face returned non-JSON response: " +:+
                               String.substring 0 400 text))
        | Some data =>
            match error_field data with
            | Some e => inl (RuntimeError ("Hugging Face error: " +:+ str_of_value e))
            | None =>
                match first_dict data with
                | Some d0 => inr (py_or (dict_get "generated_text" d0) (VStr ""))
                | None =>
                    match data with
                    | VDict d =>
                        inr (py_or (dict_get "generated_text" d)
                               (py_or (dict_get "text" d) (VStr (str_of_value data))))
                    | _ => inr (VStr (str_of_value data))
                    end
                end
            end
        end
  end.

(** ** The bot as a transition system *)

(** The calls that touch [STATE]. [push_history] is only ever called with
    the default [max_len]. *)
Inductive op :=
  | OpAddModerated (chat_id : Z)
  | OpRemoveModerated (chat_id : Z)
  | OpPushHistory (key role content : string)
  | OpCreateReport (user : User) (channel_url uuid_hex now_iso : string)
  | OpRecoveryCallback (q : CallbackQuery) (now_iso : string)
  | OpRecoveryStatus (text : option string).

Definition step (o : op) (w : World) : World :=
  match o with
  | OpAddModerated c => add_moderated_chat c w
  | OpRemoveModerated c => remove_moderated_chat c w
  | OpPushHistory k r c => push_history k r c 10 w
  | OpCreateReport u url uuid now => (_create_report u url uuid now w).2
  | OpRecoveryCallback q now => (recovery_callback_handler q now w).2
  | OpRecoveryStatus t => (recovery_status t w).2
  end.

Definition run (ops : list op) (w : World) : World := foldl (λ w o, step o w) w ops.

(** The worlds the program gets to from the default document. *)
Inductive reachable : World → Prop :=
  | reachable_init fs : reachable {| STATE := DEFAULT_STATE; disk := fs |}
  | reachable_step o w : reachable w → reachable (step o w).

Definition report_ids (w : World) : list string := r_id <$> reports_of (STATE w).

(** Every id that [_create_report] draws along [ops], started in [w], is
    different from the ids of the reports present when it is drawn. *)
Fixpoint fresh_draws (ops : list op) (w : World) : Prop :=
  match ops with
  | [] => True
  | o :: ops' =>
      match o with
      | OpCreateReport _ _ uuid_hex _ => String.substring 0 8 uuid_hex ∉ report_ids w
      | _ => True
      end ∧ fresh_draws ops' (step o w)
  end.

End Bot.

(** ** A runtime to run the model on

    The properties below hold for every [PyRuntime].  To evaluate the model
    on concrete inputs we fix one: [str.strip] and [int] on ASCII input,
    [str] on scalars and empty containers, and a [json] codec that knows
    the texts listed in [json_texts] and [DEFAULT_STATE_text]. *)

Definition is_space (c : ascii) : bool :=
  let n := nat_of_ascii c in
  ((9 <=? n) && (n <=? 13) || (28 <=? n) && (n <=? 32))%nat.

Fixpoint lstrip (s : string) : string :=
  match s with
  | EmptyString => EmptyString
  | String c s' => if is_space c then lstrip s' else s
  end.

Fixpoint rstrip (s : string) : string :=
  match s with
  | EmptyString => EmptyString
  | String c s' =>
      match rstrip s' with
      | EmptyString => if is_space c then EmptyString else String c EmptyString
      | t => String c t
      end
  end.

Definition ascii_strip (s : string) : string := rstrip (lstrip s).

Fixpoint digits_value (acc : Z) (s : string) : option Z :=
  match s with
  | EmptyString => Some acc
  | String c s' =>
      let n := nat_of_ascii c in
      if ((48 <=? n) && (n <=? 57))%nat
      then digits_value (10 * acc + (Z.of_nat n - 48)) s'
      else None
  end.

(** [int(s)] for an optional sign followed by decimal digits. *)
Definition dec_int (s : string) : option Z :=
  match ascii_strip s with
  | EmptyString => None
  | String c t =>
      if Ascii.eqb c "-" then (if String.eqb t "" then None else Z.opp <$> digits_value 0 t)
      else if Ascii.eqb c "+" then (if String.eqb t "" then None else digits_value 0 t)
      else digits_value 0 (String c t)
  end.

(** [str(x)] for scalars and for the empty list and dict. *)
Definition sample_str (v : value) : string :=
  match v with
  | VNull => "None"
  | VBool true => "True"
  | VBool false => "False"
  | VInt z => pretty z
  | VStr s => s
  | VFloat _ => "<float>"
  | VList [] => "[]"
  | VList _ => "<list>"
  | VDict d => match map_to_list d with [] => "{}" | _ => "<dict>" end
  end.

Definition dq : string := String (ascii_of_nat 34) EmptyString.
Definition quoted (s : string) : string := dq +:+ s +:+ dq.


(** Response bodies and what [json.loads] makes of them. *)
Definition body_text : string :=
  "[{" +:+ quoted "generated_text" +:+ ": " +:+ quoted "hola" +:+ "}]".
Definition body_number : string :=
  "[{" +:+ quoted "generated_text" +:+ ": 5}]".
Definition body_null_error : string :=
  "{" +:+ quoted "error" +:+ ": null, " +:+ quoted "generated_text" +:+ ": " +:+ quoted "hola" +:+ "}".
Definition body_error : string :=
  "{" +:+ quoted "error" +:+ ": " +:+ quoted "Model is loading" +:+ "}".

Definition json_texts : list (string * value) :=
  [ (body_text, VList [VDict {["generated_text" := VStr "hola"]}]);
    (body_number, VList [VDict {["generated_text" := VInt 5]}]);
    (body_null_error, VDict (<["error" := VNull]> {["generated_text" := VStr "hola"]}));
    (body_error, VDict {["error" := VStr "Model is loading"]});
    ("[]", VList []);
    ("7", VInt 7) ].

Fixpoint assoc {A} (k : string) (l : list (string * A)) : option A :=
  match l with
  | [] => None
  | (k', v) :: t => if String.eqb k k' then Some v else assoc k t
  end.

Definition sample_runtime : PyRuntime :=
  {| str_strip := ascii_strip;
     str_strip_empty := eq_refl;
     int_of_str := dec_int;
     str_of_value := sample_str;
     json_loads := λ text, assoc text json_texts |}.

Definition sample_config (admin_ids : option string) : Config :=
  {| env_STATE_FILE := None;
     env_HUGGINGFACE_API_KEY := Some "hf_key";
     env_RECOVERY_CHAT_ID := None;
     env_RECOVERY_ADMIN_IDS := admin_ids |}.

Definition world_of (st : State) : World := {| STATE := st; disk := ∅ |}.

(** [RECOVERY_ADMIN_IDS] unset: nobody is turned away.  Set to ["1"]:
    only user 1 passes the guard. *)
Definition open_config : Config := sample_config None.
Definition admin1_config : Config := sample_config (Some "1").

(** Inputs for the evaluations at the end of the file. *)

Definition alice : User :=
  {| u_id := 1; u_username := Some "alice"; u_first_name := "Alice"; u_last_name := None |}.
Definition bob : User :=
  {| u_id := 2; u_username := None; u_first_name := "Bob"; u_last_name := Some "Ruiz" |}.

Definition pending_report : Report :=
  {| r_id := "0123abcd";
     r_user_id := 40;
     r_user_name := "carol";
     r_channel_url := "https://t.me/mi_canal";
     r_created_at := "2024-05-01T10:00:00Z";
     r_status := "pending";
     r_response_by := None;
     r_response_at := None |}.

Definition one_pending : World :=
  world_of {| moderated_chats := Some [5; 7]; histories := Some ∅;
              reports := Some [pending_report] |}.

Definition twice_moderated : World :=
  world_of {| moderated_chats := Some [5; 5]; histories := Some ∅; reports := Some [] |}.

Definition approve_by (user : User) : CallbackQuery :=
  {| q_data := Some "recovery:0123abcd:approve";
     q_from_user := user;
     q_message_text := "Nuevo reporte" |}.

(** Two draws of [uuid.uuid4().hex] that agree on their first eight digits. *)
Definition uuid_a : string := "0123456789ab4def8123456789abcdef".
Definition uuid_b : string := "01234567ffff4fff9fffffffffffffff".

Definition uuid_c : string := "89abcdef01234567a9876543210fedcb".

Definition colliding_reports : list op :=
  [ OpCreateReport alice "https://t.me/canal_a" uuid_a "2024-05-01T10:00:00";
    OpCreateReport bob "https://t.me/canal_b" uuid_b "2024-05-02T11:30:00" ].

Definition distinct_reports : list op :=
  [ OpCreateReport alice "https://t.me/canal_a" uuid_a "2024-05-01T10:00:00";
    OpRecoveryCallback
      {| q_data := Some "recovery:01234567:deny"; q_from_user := bob;
         q_message_text := "Nuevo reporte" |} "2024-05-01T12:00:00";
    OpCreateReport bob "https://t.me/canal_b" uuid_c "2024-05-02T11:30:00" ].

Definition clock : string := "2024-05-03T09:00:00".

Definition said (content : string) : HistoryEntry := {| role := "user"; content := content |}.

(** Chat 9 with a history of ten entries. *)
Definition full_history : World :=
  world_of {| moderated_chats := Some [];
              histories := Some {["9" := said <$> ["a"; "b"; "c"; "d"; "e"; "f"; "g"; "h"; "i"; "j"]]};
              reports := Some [] |}.

(** ** The command handlers

    What a handler sends is a list of [Output]s, in the order sent.  The
    generation backend is a function from the prompt posted to the body of
    the response. *)

(** [s.lower()], and [str(e)] for the [ValueError] that [int(s)] raises. *)
Class PyText := {
  str_lower : string → string;
  int_error : string → string }.

Inductive Output :=
  | Reply (text : string)
  | SendDocument (filename content : string)
  | SendMessage (chat_id : Z) (text : string) (keyboard : list (string * string))
  | DeleteMessage (chat_id message_id : Z).

(** A handler that returns, or one that an uncaught exception ends; either
    way after having sent [out]. *)
Inductive Run :=
  | Done (out : list Output)
  | Crashed (out : list Output).

Definition EXT_MAP : list (string * string) :=
  [ ("python", ".py"); ("py", ".py");
    ("js", ".js"); ("javascript", ".js");
    ("ts", ".ts"); ("typescript", ".ts");
    ("sh", ".sh"); ("bash", ".sh");
    ("go", ".go"); ("java", ".java"); ("rb", ".rb"); ("php", ".php");
    ("txt", ".txt") ].

Definition BANNED_WORDS : list string := ["palabraprohibida1"; "palabraprohibida2"].

(** [w in text] on strings: [w] occurs in [text]. *)
Fixpoint str_contains (w text : string) : bool :=
  String.prefix w text ||
  match text with
  | EmptyString => false
  | String _ text' => str_contains w text'
  end.

(** [ChatMember.status], by the constants of [telegram.ChatMember]. *)
Inductive MemberStatus := OWNER | ADMINISTRATOR | MEMBER | RESTRICTED | LEFT | BANNED.

(** [member.status in (ChatMember.ADMINISTRATOR, ChatMember.OWNER)]. *)
Definition _is_user_admin (member : MemberStatus) : bool :=
  match member with
  | ADMINISTRATOR | OWNER => true
  | _ => false
  end.

Record Message := { message_id : Z; m_text : option string }.

(** One line of the prompt per history entry. *)
Definition history_line (item : HistoryEntry) : string :=
  (if String.eqb (role item) "user" then "Usuario: " else "Asistente: ") +:+
  content item +:+ nl.

(** The prompt [chat_cmd] builds from the history and the message. *)
Definition chat_prompt (history : list HistoryEntry) (user_msg : string) : string :=
  "Eres un asistente conversacional útil y conciso." +:+ nl +:+ nl +:+
  foldl (λ accumulated item, accumulated +:+ history_line item) "" history +:+
  nl +:+ "Usuario: " +:+ user_msg +:+ nl +:+ "Asistente:".

(** The inline keyboard under the notice of a report. *)
Definition recovery_keyboard (report_id : string) : list (string * string) :=
  [ ("Proveer ✅", "recovery:" +:+ report_id +:+ ":approve");
    ("No proveer ❌", "recovery:" +:+ report_id +:+ ":deny") ].

Definition recovery_notice (report : Report) : string :=
  "🔔 Nuevo reporte de recuperación" +:+ nl +:+
  "Report ID: " +:+ r_id report +:+ nl +:+
  "Usuario: @" +:+ r_user_name report +:+ " (id: " +:+ pretty (r_user_id report) +:+ ")" +:+ nl +:+
  "Canal/URL: " +:+ r_channel_url report +:+ nl +:+
  "Creado: " +:+ r_created_at report +:+ nl +:+ nl +:+
  "Usa los botones para marcar si el canal fue recuperado o no.".

Section Handlers.
Context `{RT : PyRuntime} `{TX : PyText} (cfg : Config).

(** [args = text.split(" ", 1)] and the test
    [len(args) < 2 or not args[1].strip()] that opens every command with an
    argument: the argument [args[1].strip()], or [None] for the usage reply. *)
Definition command_arg (text : option string) : option string :=
  match str_split1 " " (default "" text) with
  | [_; arg] => if String.eqb (str_strip arg) "" then None else Some (str_strip arg)
  | _ => None
  end.

(** *** /generate_script *)

(** The language and the description in [body]: cut at the first bar, or
    the language ["txt"] when there is none. *)
Definition script_request (body : string) : string * string :=
  match str_split1 "|" body with
  | [lang; prompt] => (str_strip lang, str_strip prompt)
  | _ => ("txt", body)
  end.

Definition script_prompt (lang prompt : string) : string :=
  "Genera un script en " +:+ lang +:+ " que haga lo siguiente:" +:+ nl +:+
  prompt +:+ nl +:+ "Entrega solo el código, sin explicaciones adicionales.".

(** [f"script{EXT_MAP.get(lang.lower(), '.txt')}"]. *)
Definition script_filename (lang : string) : string :=
  "script" +:+ default ".txt" (assoc (str_lower lang) EXT_MAP).

(** [generate_script]; [tmp_path] is the name [tempfile.NamedTemporaryFile]
    gives the file, and [attach_ok] tells whether writing the temporary
    file and sending the document went through.  The document is built as
    [InputFile(tmp_path, filename=filename)], and [InputFile] takes a [str]
    as the content itself: what is sent under [filename] is the text of
    [tmp_path], not what was written to that file.  Code that is not a
    string cannot be written to the file, nor appended to the fallback
    text: the [TypeError] of the second attempt is not caught.  The
    temporary file itself is outside the [World]. *)
Definition generate_script (text : option string) (backend : string → string)
    (tmp_path : string) (attach_ok : bool) : Run :=
  match command_arg text with
  | None =>
      Done [Reply ("Uso: /generate_script <lenguaje> | <descripcion breve>" +:+ nl +:+
                   "Ej: /generate_script python | Lee un CSV y resume columnas")]
  | Some body =>
      let lang := (script_request body).1 in
      let prompt := (script_request body).2 in
      let announce := Reply ("Generando script en " +:+ lang +:+ " con Mistral...") in
      match hf_generate_text cfg (backend (script_prompt lang prompt)) with
      | inl (RuntimeError e) =>
          Done [announce; Reply ("Error al generar el script: " +:+ e)]
      | inr code =>
          let here :=
            Reply "Aquí está el código generado (también te lo adjunto como archivo):" in
          match code with
          | VStr s =>
              if attach_ok
              then Done [announce; here; SendDocument (script_filename lang) tmp_path]
              else Done [announce; here;
                         Reply ("No se pudo adjuntar el archivo, te envío el código en texto:" +:+
                                nl +:+ nl +:+ s)]
          | _ => Crashed [announce; here]
          end
      end
  end.

(** *** /chat *)

(** [chat_cmd]; the key of the chat is [str(update.effective_chat.id)].
    [None]: the backend made [hf_generate_text] return a value that is not
    a string, which the code would store as the content of a history entry;
    [HistoryEntry] holds strings only. *)
Definition chat_cmd (chat_id : Z) (text : option string) (backend : string → string)
    (w : World) : option (list Output * World) :=
  let key := pretty chat_id in
  match command_arg text with
  | None => Some ([Reply "Uso: /chat <mensaje>"], w)
  | Some user_msg =>
      let w1 := push_history cfg key "user" user_msg 10 w in
      let history := history_of key w1 in
      match hf_generate_text cfg (backend (chat_prompt history user_msg)) with
      | inl (RuntimeError e) => Some ([Reply ("Error en la IA: " +:+ e)], w1)
      | inr (VStr assistant_msg) =>
          Some ([Reply assistant_msg], push_history cfg key "assistant" assistant_msg 10 w1)
      | inr _ => None
      end
  end.

(** *** Moderation *)

(** [moderate_on]; [member] is what [get_chat_member] returned, [None] when
    it raised. *)
Definition moderate_on (chat_type : string) (chat_id : Z) (member : option MemberStatus)
    (w : World) : list Output * World :=
  if String.eqb chat_type "private"
  then ([Reply "La moderación por chat no se aplica en chats privados."], w)
  else
    match member with
    | None =>
        ([Reply "No pude comprobar tus permisos. Asegúrate de que el bot puede ver administradores."], w)
    | Some m =>
        if negb (_is_user_admin m)
        then ([Reply "Solo administradores pueden activar la moderación."], w)
        else
          ([Reply "Moderación activada en este chat. El bot intentará eliminar mensajes con contenido no permitido."],
           add_moderated_chat cfg chat_id w)
    end.

Definition moderate_off (chat_id : Z) (member : option MemberStatus)
    (w : World) : list Output * World :=
  match member with
  | None => ([Reply "No pude comprobar tus permisos."], w)
  | Some m =>
      if negb (_is_user_admin m)
      then ([Reply "Solo administradores pueden desactivar la moderación."], w)
      else ([Reply "Moderación desactivada en este chat."], remove_moderated_chat cfg chat_id w)
  end.

(** The loop over [BANNED_WORDS]: delete at the first word found. *)
Fixpoint delete_if_banned (words : list string) (text : string) (chat_id : Z)
    (m : Message) : list Output :=
  match words with
  | [] => []
  | bw :: words' =>
      if str_contains bw text then [DeleteMessage chat_id (message_id m)]
      else delete_if_banned words' text chat_id m
  end.

(** [message_handler]. *)
Definition message_handler (chat_id : Z) (msg : option Message) (w : World) : list Output :=
  match msg with
  | None => []
  | Some m =>
      match m_text m with
      | None => []
      | Some t =>
          if String.eqb t "" then []
          else
            let text := str_lower t in
            if is_chat_moderated chat_id w
            then delete_if_banned BANNED_WORDS text chat_id m
            else []
      end
  end.

(** *** /report_recovery *)

Definition report_recovery (user : User) (text : option string) (uuid_hex now_iso : string)
    (w : World) : list Output * World :=
  match command_arg text with
  | None =>
      ([Reply ("Uso: /report_recovery <url_del_canal>" +:+ nl +:+
               "Ej: /report_recovery https://t.me/mi_canal")], w)
  | Some channel_url =>
      let report := (_create_report cfg user channel_url uuid_hex now_iso w).1 in
      let w' := (_create_report cfg user channel_url uuid_hex now_iso w).2 in
      let created :=
        Reply ("Reporte creado (ID: " +:+ r_id report +:+
               "). Tu solicitud será revisada por el equipo de recuperación.") in
      match RECOVERY_CHAT_ID cfg with
      | None =>
          ([created;
            Reply "RECOVERY_CHAT_ID no está configurado. No se puede notificar al equipo."], w')
      | Some chat =>
          if String.eqb chat ""
          then ([created;
                 Reply "RECOVERY_CHAT_ID no está configurado. No se puede notificar al equipo."], w')
          else
            match int_of_str chat with
            | Some recovery_chat =>
                ([created;
                  SendMessage recovery_chat (recovery_notice report)
                    (recovery_keyboard (r_id report))], w')
            | None =>
                ([created;
                  Reply ("No pude notificar al equipo de recuperación: " +:+ int_error chat)], w')
            end
      end
  end.

End Handlers.

(** [s.lower()] on ASCII letters, for the evaluations. *)
Definition ascii_lower_char (c : ascii) : ascii :=
  let n := nat_of_ascii c in
  if ((65 <=? n) && (n <=? 90))%nat then ascii_of_nat (n + 32) else c.

Fixpoint ascii_lower (s : string) : string :=
  match s with
  | EmptyString => EmptyString
  | String c s' => String (ascii_lower_char c) (ascii_lower s')
  end.

Definition sample_text : PyText :=
  {| str_lower := ascii_lower;
     int_error := λ s, "invalid literal for int() with base 10: '" +:+ s +:+ "'" |}.

(** Inputs for the evaluations of the handlers. *)

(** [RECOVERY_CHAT_ID] set to a group id, nobody configured as admin. *)
Definition notify_config : Config :=
  {| env_STATE_FILE := None;
     env_HUGGINGFACE_API_KEY := Some "hf_key";
     env_RECOVERY_CHAT_ID := Some "-100200300";
     env_RECOVERY_ADMIN_IDS := None |}.

(** A message that spells a banned word with capitals. *)
Definition banned_message : Message :=
  {| message_id := 77; m_text := Some "Hola PalabraProhibida1!" |}.

(** A backend that always answers with the usual body, and one whose
    "generated_text" is a number. *)
Definition backend_text : string → string := λ _, body_text.
Definition backend_number : string → string := λ _, body_number.


(** Chat 9 after one exchange. *)
Definition greeted : World :=
  world_of (set_histories {["9" := [ {| role := "user"; content := "buenas" |};
                                     {| role := "assistant"; content := "hola" |} ]]}
              DEFAULT_STATE).

(** ** What the spec calls things *)

(** The last [n] elements of a list. *)
Definition last_n {A} (n : nat) (l : list A) : list A := drop (length l - n) l.

(** A field that holds a string, or a falsy value that [or] passes over. *)
Definition string_or_falsy (v : value) : bool := is_str v || negb (truthy v).

(** The fields [hf_generate_text] may return hold strings where they hold
    anything truthy. *)
Definition text_fields_ok (data : value) : Prop :=
  match data with
  | VList (VDict d0 :: _) => string_or_falsy (dict_get "generated_text" d0) = true
  | VDict d =>
      string_or_falsy (dict_get "generated_text" d) = true ∧
      string_or_falsy (dict_get "text" d) = true
  | _ => True
  end.

(** A report that has been answered, and one that is where the lifecycle
    allows it to be. *)
Definition answered (r : Report) : Prop :=
  (r_status r = "provided" ∨ r_status r = "denied") ∧
  is_Some (r_response_by r) ∧ is_Some (r_response_at r).

Definition in_lifecycle (r : Report) : Prop :=
  (r_status r = "pending" ∧ r_response_by r = None ∧ r_response_at r = None) ∨
  answered r.

(** The fields of a report that record the request, not the answer. *)
Definition same_request (r r' : Report) : Prop :=
  r_id r' = r_id r ∧ r_user_id r' = r_user_id r ∧ r_user_name r' = r_user_name r ∧
  r_channel_url r' = r_channel_url r ∧ r_created_at r' = r_created_at r.

(** No history is longer than the default [max_len]. *)
Definition histories_bounded (w : World) : Prop :=
  ∀ key h, histories_of (STATE w) !! key = Some h → (length h ≤ 10)%nat.


(** [c] occurs in [s]. *)
Fixpoint str_has (c : ascii) (s : string) : bool :=
  match s with
  | EmptyString => false
  | String c' s' => Ascii.eqb c' c || str_has c s'
  end.

Section Notions.
Context `{RT : PyRuntime} (cfg : Config).

(** The state file holds the dump of the document in memory. *)
Definition in_sync (w : World) : Prop :=
  disk w !! STATE_FILE cfg = Some (json_dump_state (STATE w)).

End Notions.

(** * The JSON codec *)

Lemma str_app_cons c (a b : string) : String c a +:+ b = String c (a +:+ b).
Proof. done. Qed.

Lemma str_app_assoc (a b c : string) : (a +:+ b) +:+ c = a +:+ (b +:+ c).
Proof. induction a as [|x a IH]; [done|]. by rewrite !str_app_cons, IH. Qed.


(** *** Strings *)




(** *** Integers *)






(** *** Values *)












Lemma ends_number_comma s : ends_number (String "," s).
Proof. done. Qed.

Lemma ends_number_newline_indent level s : ends_number (newline_indent level +:+ s).
Proof. done. Qed.



















(** *** The state document *)









(** * Properties *)

Section Properties.
Context `{RT : PyRuntime} (cfg : Config).

(** ** Chat histories *)

Lemma py_slice_from_neg {A} (n : nat) (l : list A) :
  (0 < n)%nat → py_slice_from (- Z.of_nat n) l = last_n n l.
Proof.
  intros Hn. unfold py_slice_from, last_n.
  destruct (Z.ltb_spec (- Z.of_nat n) 0) as [_|Hge]; [|lia].
  f_equal. lia.
Qed.

Lemma history_of_push key role content max_len w :
  history_of key (push_history cfg key role content max_len w) =
    let h := history_of key w ++ [{| role := role; content := content |}] in
    if Z.of_nat (length h) >? max_len then py_slice_from (- max_len) h else h.
Proof.
  unfold history_of, push_history, histories_of. simpl.
  by rewrite lookup_insert_eq.
Qed.

Lemma history_of_push_ne key key' role content max_len w :
  key ≠ key' →
  history_of key' (push_history cfg key role content max_len w) = history_of key' w.
Proof.
  intros Hne. unfold history_of, push_history, histories_of. simpl.
  by rewrite lookup_insert_ne.
Qed.

(** C3. After [push_history] with the default [max_len] of 10, the history
    of the chat is the last 10 elements of the old history with the new
    entry appended: it is never longer than 10, it is a suffix of the
    appended list (the oldest entries go first, the order of the kept ones
    is unchanged) and it ends with the new entry. *)
Theorem push_history_ring_buffer key role content w :
  let entry := {| role := role; content := content |} in
  let old := history_of key w in
  let new := history_of key (push_history cfg key role content 10 w) in
  new = last_n 10 (old ++ [entry]) ∧
  (length new ≤ 10)%nat ∧
  new `suffix_of` old ++ [entry] ∧
  last new = Some entry.
Proof.
  intros entry old new.
  assert (Hnew : new = last_n 10 (old ++ [entry])).
  { subst new. rewrite history_of_push. cbv zeta. fold old entry.
    destruct (Z.gtb_spec (Z.of_nat (length (old ++ [entry]))) 10) as [Hgt|Hle].
    - apply (py_slice_from_neg 10%nat). lia.
    - unfold last_n. replace (length (old ++ [entry]) - 10)%nat with 0%nat by lia. done. }
  rewrite Hnew. unfold last_n. split_and!.
  - done.
  - rewrite length_drop. lia.
  - apply suffix_drop.
  - rewrite length_app. simpl.
    destruct (decide (length old + 1 - 10 ≤ length old)%nat) as [Hle|Hgt]; [|lia].
    rewrite drop_app_le by done. by rewrite last_snoc.
Qed.

(** ** Moderation flags *)

Lemma with_state_id (w : World) : with_state (STATE w) w = w.
Proof. by destruct w. Qed.

Lemma set_moderated_chats_id st l :
  moderated_chats st = Some l → set_moderated_chats l st = st.
Proof. destruct st; simpl; by intros ->. Qed.

Lemma set_reports_id st l : reports st = Some l → set_reports l st = st.
Proof. destruct st; simpl; by intros ->. Qed.

Lemma reports_of_set_reports l st : reports_of (set_reports l st) = l.
Proof. done. Qed.

Lemma chats_of_elem st c :
  c ∈ chats_of st → moderated_chats st = Some (chats_of st).
Proof. unfold chats_of. destruct (moderated_chats st); simpl; [done|]. by intros ?%elem_of_nil. Qed.

Lemma list_remove_notin c l : c ∉ l → list_remove c l = l.
Proof.
  induction l as [|y t IH]; simpl; [done|]. intros Hnin.
  apply not_elem_of_cons in Hnin as [Hne Hnin].
  rewrite bool_decide_eq_false_2 by done. f_equal. by apply IH.
Qed.

Lemma elem_of_list_remove c x l : x ∈ list_remove c l → x ∈ l.
Proof.
  induction l as [|y t IH]; simpl; [done|].
  case_bool_decide.
  - by apply list_elem_of_further.
  - intros [->|Hx]%elem_of_cons; [apply list_elem_of_here|].
    apply list_elem_of_further. by apply IH.
Qed.

Lemma elem_of_list_remove_ne c x l : x ≠ c → x ∈ list_remove c l ↔ x ∈ l.
Proof.
  intros Hne. split; [apply elem_of_list_remove|].
  induction l as [|y t IH]; simpl; [done|].
  intros [->|Hx]%elem_of_cons.
  - rewrite bool_decide_eq_false_2 by done. apply list_elem_of_here.
  - case_bool_decide; [done|]. apply list_elem_of_further. by apply IH.
Qed.

Lemma list_remove_NoDup c l :
  NoDup l → (c ∉ list_remove c l) ∧ NoDup (list_remove c l).
Proof.
  induction 1 as [|y t Hy Hnd [IHc IHnd]]; simpl.
  - split; [apply not_elem_of_nil|constructor].
  - case_bool_decide as Hyc.
    + subst y. done.
    + split.
      * intros [->|Hc]%elem_of_cons; done.
      * constructor; [|done]. intros Hin. by apply Hy, (elem_of_list_remove c).
Qed.

Lemma chats_of_add c w :
  chats_of (STATE (add_moderated_chat cfg c w)) =
    if bool_decide (c ∈ chats_of (STATE w)) then chats_of (STATE w)
    else chats_of (STATE w) ++ [c].
Proof. unfold add_moderated_chat. by case_bool_decide. Qed.

Lemma chats_of_remove c w :
  chats_of (STATE (remove_moderated_chat cfg c w)) = list_remove c (chats_of (STATE w)).
Proof.
  unfold remove_moderated_chat. case_bool_decide; simpl; [done|].
  by rewrite list_remove_notin.
Qed.

Lemma add_moderated_chat_present c w :
  is_chat_moderated c w = true → add_moderated_chat cfg c w = w.
Proof.
  unfold is_chat_moderated, add_moderated_chat. intros Hin.
  rewrite Hin. apply bool_decide_eq_true in Hin.
  rewrite set_moderated_chats_id by (by apply (chats_of_elem _ c)).
  apply with_state_id.
Qed.

Lemma add_moderated_chat_NoDup c w :
  NoDup (chats_of (STATE w)) → NoDup (chats_of (STATE (add_moderated_chat cfg c w))).
Proof.
  intros Hnd. rewrite chats_of_add. case_bool_decide; [done|].
  apply NoDup_app. split_and!; [done| |apply NoDup_singleton].
  intros x Hx ->%list_elem_of_singleton. done.
Qed.

Lemma remove_moderated_chat_NoDup c w :
  NoDup (chats_of (STATE w)) → NoDup (chats_of (STATE (remove_moderated_chat cfg c w))).
Proof. intros Hnd. rewrite chats_of_remove. by apply (list_remove_NoDup c). Qed.

(** ** Reports: what each operation does to the collections *)

Lemma reports_of_add c w : reports_of (STATE (add_moderated_chat cfg c w)) = reports_of (STATE w).
Proof. unfold add_moderated_chat. by case_bool_decide. Qed.

Lemma reports_of_remove c w :
  reports_of (STATE (remove_moderated_chat cfg c w)) = reports_of (STATE w).
Proof. unfold remove_moderated_chat. by case_bool_decide. Qed.

Lemma reports_of_push key role content max_len w :
  reports_of (STATE (push_history cfg key role content max_len w)) = reports_of (STATE w).
Proof. done. Qed.

Lemma reports_of_create user url uuid now w :
  reports_of (STATE (_create_report cfg user url uuid now w).2) =
    reports_of (STATE w) ++ [(_create_report cfg user url uuid now w).1].
Proof. done. Qed.

Lemma reports_of_status text w :
  reports_of (STATE (recovery_status text w).2) = reports_of (STATE w).
Proof.
  unfold recovery_status.
  destruct (str_split1 " " (default "" text)) as [|cmd [|arg [|]]]; try done.
  destruct (String.eqb (str_strip arg) ""); [done|].
  by destruct (find_report _ _) as [[??]|].
Qed.

(** Rewriting with these brings [reports_of] after an operation back to
    [reports_of] before it. *)
Create Rewrite HintDb bot_frame.
#[local] Hint Rewrite reports_of_add reports_of_remove reports_of_status
  reports_of_set_reports : bot_frame.

(** C4. [_create_report] appends exactly one report, the one it returns:
    it carries the given user id and channel URL, is pending and has no
    responder and no response time; the reports already there, the
    moderated chats and the histories are what they were, and the new
    document is the one on disk. *)
Theorem create_report_postcondition user url uuid now w :
  let r := (_create_report cfg user url uuid now w).1 in
  let w' := (_create_report cfg user url uuid now w).2 in
  reports_of (STATE w') = reports_of (STATE w) ++ [r] ∧
  length (reports_of (STATE w')) = S (length (reports_of (STATE w))) ∧
  (∀ i x, reports_of (STATE w) !! i = Some x → reports_of (STATE w') !! i = Some x) ∧
  last (reports_of (STATE w')) = Some r ∧
  r_user_id r = u_id user ∧
  r_channel_url r = url ∧
  r_status r = "pending" ∧
  r_response_by r = None ∧
  r_response_at r = None ∧
  moderated_chats (STATE w') = moderated_chats (STATE w) ∧
  histories (STATE w') = histories (STATE w) ∧
  disk w' = save_state cfg (STATE w') (disk w).
Proof.
  intros r w'. subst r w'. rewrite reports_of_create. split_and!; try done.
  - rewrite length_app. simpl. lia.
  - intros i x Hx. by apply lookup_app_l_Some.
  - apply last_snoc.
Qed.

(** ** The recovery callback *)

(** [STATE.setdefault("reports", [])] on a state that has reports. *)
Lemma setdefault_reports_id w i r :
  reports_of (STATE w) !! i = Some r →
  with_state (set_reports (reports_of (STATE w)) (STATE w)) w = w.
Proof.
  intros Hi. rewrite set_reports_id; [apply with_state_id|].
  unfold reports_of in *. by destruct (reports (STATE w)).
Qed.

Lemma find_report_Some rid rs i r :
  find_report rid rs = Some (i, r) ↔
    rs !! i = Some r ∧ r_id r = rid ∧ ∀ j r', rs !! j = Some r' → (j < i)%nat → r_id r' ≠ rid.
Proof. unfold find_report. by rewrite list_find_Some. Qed.

Lemma find_report_None rid rs :
  find_report rid rs = None ↔ ∀ r, r ∈ rs → r_id r ≠ rid.
Proof. unfold find_report. by rewrite list_find_None, Forall_forall. Qed.

(** The handler on well-formed callback data. *)
Lemma callback_on_data q now w rid action :
  str_split ":" (default "" (q_data q)) = ["recovery"; rid; action] →
  recovery_callback_handler cfg q now w =
    let clicker_id := u_id (q_from_user q) in
    if unauthorized cfg clicker_id then (CbUnauthorized, w)
    else
      let rs := reports_of (STATE w) in
      let w1 := with_state (set_reports rs (STATE w)) w in
      match find_report rid rs with
      | None => (CbNotFound, w1)
      | Some (i, report) =>
          if negb (String.eqb (r_status report) "pending") then (CbAlreadyAnswered, w1)
          else
            let report' := resolve action clicker_id now report in
            (CbResolved report',
             persist cfg (with_state (set_reports (<[i := report']> rs) (STATE w)) w))
      end.
Proof. unfold recovery_callback_handler. by intros ->. Qed.

(** Either the handler resolves a pending report found under the id its
    data names, or it leaves the state as it was (up to binding the key
    ["reports"] to the empty list when the key was missing). *)
Lemma callback_cases q now w :
  let o := (recovery_callback_handler cfg q now w).1 in
  let w' := (recovery_callback_handler cfg q now w).2 in
  (∃ rid action i r,
      str_split ":" (default "" (q_data q)) = ["recovery"; rid; action] ∧
      unauthorized cfg (u_id (q_from_user q)) = false ∧
      find_report rid (reports_of (STATE w)) = Some (i, r) ∧
      r_status r = "pending" ∧
      o = CbResolved (resolve action (u_id (q_from_user q)) now r) ∧
      w' = persist cfg (with_state
             (set_reports (<[i := resolve action (u_id (q_from_user q)) now r]>
                             (reports_of (STATE w))) (STATE w)) w)) ∨
  ((∀ r', o ≠ CbResolved r') ∧
   (w' = w ∨ w' = with_state (set_reports (reports_of (STATE w)) (STATE w)) w)).
Proof.
  cbv zeta. unfold recovery_callback_handler.
  destruct (str_split ":" (default "" (q_data q))) as [|p0 [|rid [|action [|]]]] eqn:Hsplit;
    try (right; split; [done|by left]).
  destruct (String.eqb_spec p0 "recovery") as [->|Hp0]; simpl;
    [|right; split; [done|by left]].
  destruct (unauthorized cfg (u_id (q_from_user q))) eqn:Hauth;
    [right; split; [done|by left]|].
  destruct (find_report rid (reports_of (STATE w))) as [[i r]|] eqn:Hfind;
    [|right; split; [done|by right]].
  destruct (String.eqb_spec (r_status r) "pending") as [Hst|Hst]; simpl;
    [|right; split; [done|by right]].
  left. by exists rid, action, i, r.
Qed.

Lemma callback_reports_unchanged q now w :
  (∀ r', (recovery_callback_handler cfg q now w).1 ≠ CbResolved r') →
  reports_of (STATE (recovery_callback_handler cfg q now w).2) = reports_of (STATE w) ∧
  moderated_chats (STATE (recovery_callback_handler cfg q now w).2) = moderated_chats (STATE w) ∧
  histories (STATE (recovery_callback_handler cfg q now w).2) = histories (STATE w) ∧
  disk (recovery_callback_handler cfg q now w).2 = disk w.
Proof.
  intros Hno. destruct (callback_cases q now w) as [(?&?&?&?&_&_&_&_&Ho&_)|[_ [->| ->]]]; [|done..].
  by destruct (Hno _ Ho).
Qed.

(** A report that has been answered stays as it is, whatever comes next. *)
Lemma step_keeps_answered o w i r :
  reports_of (STATE w) !! i = Some r → r_status r ≠ "pending" →
  reports_of (STATE (step cfg o w)) !! i = Some r.
Proof.
  intros Hi Hst.
  destruct o as [c|c|k ro co|u url uuid now|q now|text]; simpl;
    autorewrite with bot_frame; try done.
  - by apply lookup_app_l_Some.
  - destruct (callback_cases q now w) as [(rid&action&j&r0&_&_&Hfind&Hpen&_&->)|[_ [->| ->]]];
      [|done..].
    simpl. autorewrite with bot_frame. apply find_report_Some in Hfind as (Hj&_&_).
    rewrite list_lookup_insert_ne; [done|]. intros ->. congruence.
Qed.

Lemma run_keeps_answered ops w i r :
  reports_of (STATE w) !! i = Some r → r_status r ≠ "pending" →
  reports_of (STATE (run cfg ops w)) !! i = Some r.
Proof.
  revert w. induction ops as [|o ops IH]; intros w Hi Hst; [done|].
  simpl. apply IH; [|done]. by apply step_keeps_answered.
Qed.

Lemma resolve_status action clicker now r :
  r_status (resolve action clicker now r) = "provided" ∧ action = "approve" ∨
  r_status (resolve action clicker now r) = "denied" ∧ action ≠ "approve".
Proof. simpl. destruct (String.eqb_spec action "approve"); [by left|by right]. Qed.

(** ** Invariants of the reachable states *)

Lemma status_cases text w :
  (recovery_status text w).2 = w ∨
  (recovery_status text w).2 = with_state (set_reports (reports_of (STATE w)) (STATE w)) w.
Proof.
  unfold recovery_status.
  destruct (str_split1 " " (default "" text)) as [|cmd [|arg [|]]]; try by left.
  destruct (String.eqb (str_strip arg) ""); [by left|].
  destruct (find_report _ _) as [[??]|]; by right.
Qed.

(** Only the two moderation operations touch the list of moderated chats. *)
Lemma chats_of_step o w :
  chats_of (STATE (step cfg o w)) =
    match o with
    | OpAddModerated c =>
        if bool_decide (c ∈ chats_of (STATE w)) then chats_of (STATE w)
        else chats_of (STATE w) ++ [c]
    | OpRemoveModerated c => list_remove c (chats_of (STATE w))
    | _ => chats_of (STATE w)
    end.
Proof.
  destruct o as [c|c|k ro co|u url uuid now|q now|text]; simpl.
  - apply chats_of_add.
  - apply chats_of_remove.
  - done.
  - done.
  - by destruct (callback_cases q now w) as [(?&?&?&?&_&_&_&_&_&->)|[_ [->| ->]]].
  - by destruct (status_cases text w) as [-> | ->].
Qed.

Lemma step_chats_NoDup o w :
  NoDup (chats_of (STATE w)) → NoDup (chats_of (STATE (step cfg o w))).
Proof.
  intros Hnd. destruct o; try (by rewrite chats_of_step).
  - by apply add_moderated_chat_NoDup.
  - by apply remove_moderated_chat_NoDup.
Qed.

(** From the default document on, no chat id is listed twice. *)
Lemma reachable_chats_NoDup w : reachable cfg w → NoDup (chats_of (STATE w)).
Proof.
  induction 1 as [fs|o w _ IH]; [apply NoDup_nil_2|]. by apply step_chats_NoDup.
Qed.

Lemma resolve_answered action clicker now r : answered (resolve action clicker now r).
Proof.
  unfold answered. simpl. split_and!; [|by eexists..].
  destruct (String.eqb action "approve"); [by left|by right].
Qed.

Lemma step_lifecycle o w :
  Forall in_lifecycle (reports_of (STATE w)) →
  Forall in_lifecycle (reports_of (STATE (step cfg o w))).
Proof.
  intros Hall.
  destruct o as [c|c|k ro co|u url uuid now|q now|text]; simpl;
    autorewrite with bot_frame; try done.
  - apply Forall_app. split; [done|]. apply Forall_singleton. by left.
  - destruct (callback_cases q now w) as [(rid&action&i&r&_&_&_&_&_&->)|[_ [->| ->]]];
      [|done..].
    simpl. autorewrite with bot_frame. apply Forall_insert; [done|].
    right. apply resolve_answered.
Qed.

(** From the default document on, every report is either pending with no
    response recorded, or "provided"/"denied" with its responder and
    response time recorded. *)
Lemma reachable_lifecycle w : reachable cfg w → Forall in_lifecycle (reports_of (STATE w)).
Proof.
  induction 1 as [fs|o w _ IH]; [apply Forall_nil_2|]. by apply step_lifecycle.
Qed.

(** C8 (as amended). On every state, after [add_moderated_chat c] the
    chat [c] is moderated, adding a chat that is already moderated changes
    nothing at all, and neither operation touches the flag of another
    chat.  After [remove_moderated_chat c] the chat [c] is not moderated
    when the list held no id twice; both operations keep such a list free
    of duplicates, and so it is in every state reached from the default
    document. *)
Theorem moderation_flag_algebra w c :
  is_chat_moderated c (add_moderated_chat cfg c w) = true ∧
  (is_chat_moderated c w = true → add_moderated_chat cfg c w = w) ∧
  add_moderated_chat cfg c (add_moderated_chat cfg c w) = add_moderated_chat cfg c w ∧
  (∀ c', c' ≠ c →
     is_chat_moderated c' (add_moderated_chat cfg c w) = is_chat_moderated c' w ∧
     is_chat_moderated c' (remove_moderated_chat cfg c w) = is_chat_moderated c' w) ∧
  (NoDup (chats_of (STATE w)) →
     is_chat_moderated c (remove_moderated_chat cfg c w) = false ∧
     NoDup (chats_of (STATE (add_moderated_chat cfg c w))) ∧
     NoDup (chats_of (STATE (remove_moderated_chat cfg c w)))) ∧
  (reachable cfg w → NoDup (chats_of (STATE w))).
Proof.
  assert (Hadd : is_chat_moderated c (add_moderated_chat cfg c w) = true).
  { unfold is_chat_moderated. rewrite chats_of_add. apply bool_decide_eq_true.
    case_bool_decide; [done|].
    apply elem_of_app. right. apply list_elem_of_here. }
  split_and!.
  - done.
  - apply add_moderated_chat_present.
  - by apply add_moderated_chat_present.
  - intros c' Hne. unfold is_chat_moderated. rewrite chats_of_add, chats_of_remove.
    split; apply bool_decide_ext.
    + case_bool_decide; [done|].
      rewrite elem_of_app, list_elem_of_singleton. tauto.
    + by apply elem_of_list_remove_ne.
  - intros Hnd. split_and!.
    + unfold is_chat_moderated. rewrite chats_of_remove. apply bool_decide_eq_false.
      by apply (list_remove_NoDup c).
    + by apply add_moderated_chat_NoDup.
    + by apply remove_moderated_chat_NoDup.
  - apply reachable_chats_NoDup.
Qed.

(** C1 (as amended). Let a callback name a report, found at position [i].
    If the report is not pending, or the clicker does not pass the
    authorization guard, the handler leaves the whole state unchanged.  If
    it is pending and the clicker passes the guard, the handler sets its
    status to "provided" when the action is "approve" and to "denied"
    otherwise; from then on no operation, and so no later callback, changes
    that report again. *)
Theorem report_status_transition q now w rid action i r
    (Hdata : str_split ":" (default "" (q_data q)) = ["recovery"; rid; action])
    (Hfind : find_report rid (reports_of (STATE w)) = Some (i, r)) :
  let clicker := u_id (q_from_user q) in
  let w' := (recovery_callback_handler cfg q now w).2 in
  (r_status r ≠ "pending" → w' = w) ∧
  (unauthorized cfg clicker = true → w' = w) ∧
  (r_status r = "pending" → unauthorized cfg clicker = false →
     ∃ r', reports_of (STATE w') !! i = Some r' ∧
           r_status r' = (if String.eqb action "approve" then "provided" else "denied") ∧
           (r_status r' = "provided" ∨ r_status r' = "denied") ∧
           r_status r' ≠ "pending" ∧
           ∀ ops, reports_of (STATE (run cfg ops w')) !! i = Some r').
Proof.
  intros clicker w'. subst w'. rewrite (callback_on_data _ _ _ _ _ Hdata). cbv zeta.
  rewrite Hfind. fold clicker.
  pose proof Hfind as (Hi&_&_)%find_report_Some.
  split_and!.
  - intros Hst. destruct (unauthorized cfg clicker); [done|].
    destruct (String.eqb_spec (r_status r) "pending"); [done|]. simpl.
    by eapply setdefault_reports_id.
  - by intros ->.
  - intros Hst ->. rewrite Hst. simpl.
    set (r' := resolve action clicker now r).
    assert (Hi' : <[i:=r']> (reports_of (STATE w)) !! i = Some r').
    { apply list_lookup_insert_eq. by eapply lookup_lt_Some. }
    assert (Hne : r_status r' ≠ "pending").
    { destruct (resolve_status action clicker now r) as [[Hs _]|[Hs _]];
        fold r' in Hs; by rewrite Hs. }
    exists r'. split_and!; [done|done| |done|].
    + destruct (resolve_status action clicker now r) as [[Hs _]|[Hs _]]; [by left|by right].
    + intros ops. by apply run_keeps_answered.
Qed.

(** C10. When a callback resolves a pending report, the report keeps its
    id, user id, user name, channel URL and creation time, its responder
    becomes the clicker, and nothing else moves: the list of reports is
    the old one with that one position replaced, so every other report is
    unchanged, and so are the moderated chats and the histories. *)
Theorem resolution_frame q now w r'
    (Hres : (recovery_callback_handler cfg q now w).1 = CbResolved r') :
  let w' := (recovery_callback_handler cfg q now w).2 in
  ∃ i r,
    reports_of (STATE w) !! i = Some r ∧
    r_status r = "pending" ∧
    reports_of (STATE w') = <[i := r']> (reports_of (STATE w)) ∧
    reports_of (STATE w') !! i = Some r' ∧
    r_id r' = r_id r ∧
    r_user_id r' = r_user_id r ∧
    r_user_name r' = r_user_name r ∧
    r_channel_url r' = r_channel_url r ∧
    r_created_at r' = r_created_at r ∧
    r_response_by r' = Some (u_id (q_from_user q)) ∧
    length (reports_of (STATE w')) = length (reports_of (STATE w)) ∧
    (∀ j, j ≠ i → reports_of (STATE w') !! j = reports_of (STATE w) !! j) ∧
    moderated_chats (STATE w') = moderated_chats (STATE w) ∧
    histories (STATE w') = histories (STATE w).
Proof.
  intros w'. subst w'.
  destruct (callback_cases q now w) as [(rid&action&i&r&_&_&Hfind&Hpen&Ho&->)|[Hno _]];
    [|by destruct (Hno r')].
  rewrite Hres in Ho. injection Ho as ->.
  apply find_report_Some in Hfind as (Hi&_&_).
  exists i, r. simpl. rewrite reports_of_set_reports. split_and!; try done.
  - apply list_lookup_insert_eq. by eapply lookup_lt_Some.
  - apply length_insert.
  - intros j Hj. by apply list_lookup_insert_ne.
Qed.

(** ** The admin guard *)

Lemma admin_ids_fold (l : list string) (s : gset Z) z :
  z ∈ foldl (λ s p,
               let p := str_strip p in
               if String.eqb p "" then s
               else match int_of_str p with
                    | Some n => {[n]} ∪ s
                    | None => s
                    end) s l ↔
  z ∈ s ∨ ∃ p, p ∈ l ∧ str_strip p ≠ "" ∧ int_of_str (str_strip p) = Some z.
Proof.
  revert s. induction l as [|p l IH]; intros s; simpl.
  - split; [by left|]. intros [?|(p&Hp&_)]; [done|]. by apply elem_of_nil in Hp.
  - rewrite IH. clear IH. split.
    + intros [Hz|(p'&Hp'&Hne&Hint)].
      * destruct (String.eqb_spec (str_strip p) ""); [by left|].
        destruct (int_of_str (str_strip p)) as [m|] eqn:Hm; [|by left].
        apply elem_of_union in Hz as [->%elem_of_singleton|Hz]; [|by left].
        right. exists p. split_and!; [apply list_elem_of_here|done..].
      * right. exists p'. split_and!; [by apply list_elem_of_further|done..].
    + intros [Hz|(p'&[->|Hp']%elem_of_cons&Hne&Hint)].
      * left. destruct (String.eqb_spec (str_strip p) ""); [done|].
        destruct (int_of_str (str_strip p)); [|done]. apply elem_of_union. by right.
      * left. destruct (String.eqb_spec (str_strip p) ""); [done|].
        rewrite Hint. apply elem_of_union. left. by apply elem_of_singleton.
      * right. by exists p'.
Qed.

(** The set holds exactly the integers that some comma-separated token,
    once stripped, is non-empty and reads as. *)
Lemma admin_ids_spec z :
  z ∈ _admin_ids_set cfg ↔
    ∃ p, p ∈ str_split "," (RECOVERY_ADMIN_IDS cfg) ∧
         str_strip p ≠ "" ∧ int_of_str (str_strip p) = Some z.
Proof.
  unfold _admin_ids_set. rewrite admin_ids_fold. split; [|by right].
  intros [Hz|?]; [|done]. by apply not_elem_of_empty in Hz.
Qed.

Lemma admin_ids_empty :
  (∀ p, p ∈ str_split "," (RECOVERY_ADMIN_IDS cfg) →
        str_strip p = "" ∨ int_of_str (str_strip p) = None) →
  _admin_ids_set cfg = ∅.
Proof.
  intros Hskip. apply elem_of_equiv_empty_L. intros z (p&Hp&Hne&Hint)%admin_ids_spec.
  destruct (Hskip p Hp) as [Hb|Hn]; congruence.
Qed.

Lemma unauthorized_spec clicker :
  unauthorized cfg clicker = true ↔ _admin_ids_set cfg ≠ ∅ ∧ clicker ∉ _admin_ids_set cfg.
Proof.
  unfold unauthorized. rewrite andb_true_iff, !negb_true_iff, !bool_decide_eq_false. done.
Qed.

(** C9. [_admin_ids_set] skips blank and non-integer tokens, so it is empty
    when [RECOVERY_ADMIN_IDS] is unset, empty, or made of such tokens only.
    With an empty set the guard lets every clicker through, who then
    resolves the pending report the callback names: in the state the
    handler leaves, that report is "provided" or "denied" as the action
    says and no longer pending, with the clicker as its responder.  The
    guard rejects a clicker exactly when the set is non-empty and does not
    contain the clicker's id; the handler answers "not authorized" in no
    other case, and then leaves the state as it is. *)
Theorem admin_guard_bypass :
  (∀ z, z ∈ _admin_ids_set cfg ↔
        ∃ p, p ∈ str_split "," (RECOVERY_ADMIN_IDS cfg) ∧
             str_strip p ≠ "" ∧ int_of_str (str_strip p) = Some z) ∧
  ((∀ p, p ∈ str_split "," (RECOVERY_ADMIN_IDS cfg) →
         str_strip p = "" ∨ int_of_str (str_strip p) = None) →
   _admin_ids_set cfg = ∅) ∧
  (env_RECOVERY_ADMIN_IDS cfg = None ∨ env_RECOVERY_ADMIN_IDS cfg = Some "" →
   _admin_ids_set cfg = ∅) ∧
  (∀ clicker, unauthorized cfg clicker = true ↔
              _admin_ids_set cfg ≠ ∅ ∧ clicker ∉ _admin_ids_set cfg) ∧
  (_admin_ids_set cfg = ∅ →
   ∀ q now w rid action i r,
     str_split ":" (default "" (q_data q)) = ["recovery"; rid; action] →
     find_report rid (reports_of (STATE w)) = Some (i, r) →
     r_status r = "pending" →
     ∃ r',
       recovery_callback_handler cfg q now w
         = (CbResolved r',
            persist cfg (with_state (set_reports (<[i := r']> (reports_of (STATE w)))
                                       (STATE w)) w)) ∧
       reports_of (STATE (recovery_callback_handler cfg q now w).2) !! i = Some r' ∧
       (action = "approve" → r_status r' = "provided") ∧
       (action ≠ "approve" → r_status r' = "denied") ∧
       r_status r' ≠ "pending" ∧
       r_response_by r' = Some (u_id (q_from_user q)) ∧
       r_response_at r' = Some (now +:+ "Z") ∧
       r_id r' = rid ∧
       disk (recovery_callback_handler cfg q now w).2 !! STATE_FILE cfg
         = Some (json_dump_state (STATE (recovery_callback_handler cfg q now w).2))) ∧
  (∀ q now w,
     ((recovery_callback_handler cfg q now w).1 = CbUnauthorized ↔
      (∃ rid action, str_split ":" (default "" (q_data q)) = ["recovery"; rid; action]) ∧
      _admin_ids_set cfg ≠ ∅ ∧ u_id (q_from_user q) ∉ _admin_ids_set cfg) ∧
     ((recovery_callback_handler cfg q now w).1 = CbUnauthorized →
      (recovery_callback_handler cfg q now w).2 = w)).
Proof.
  split_and!.
  - apply admin_ids_spec.
  - apply admin_ids_empty.
  - intros Henv. apply admin_ids_empty. unfold RECOVERY_ADMIN_IDS.
    destruct Henv as [-> | ->]; simpl; intros p ->%list_elem_of_singleton;
      left; apply str_strip_empty.
  - apply unauthorized_spec.
  - intros Hempty q now w rid action i r Hdata Hfind Hpen.
    rewrite (callback_on_data _ _ _ _ _ Hdata). cbv zeta.
    unfold unauthorized. rewrite Hempty, bool_decide_eq_true_2 by done. simpl.
    rewrite Hfind, Hpen. simpl.
    pose proof Hfind as (Hi & Hid & _)%find_report_Some.
    eexists. split; [reflexivity|]. simpl. rewrite reports_of_set_reports.
    split_and!.
    + apply list_lookup_insert_eq. by eapply lookup_lt_Some.
    + by intros ->.
    + intros Hne. by destruct (String.eqb_spec action "approve").
    + by destruct (String.eqb action "approve").
    + done.
    + done.
    + done.
    + unfold save_state. apply lookup_insert_eq.
  - intros q now w.
    assert (Hcases : (recovery_callback_handler cfg q now w).1 = CbUnauthorized →
              (∃ rid action,
                  str_split ":" (default "" (q_data q)) = ["recovery"; rid; action]) ∧
              unauthorized cfg (u_id (q_from_user q)) = true ∧
              (recovery_callback_handler cfg q now w).2 = w).
    { unfold recovery_callback_handler.
      destruct (str_split ":" (default "" (q_data q))) as [|p0 [|rid [|action [|]]]];
        try done.
      destruct (String.eqb_spec p0 "recovery") as [->|]; simpl; [|done].
      destruct (unauthorized cfg (u_id (q_from_user q))); [by eauto|].
      destruct (find_report _ _) as [[j r]|]; [|done].
      by destruct (negb _). }
    split; [|by intros (_ & _ & ?)%Hcases].
    rewrite <- unauthorized_spec. split.
    + by intros (? & ? & _)%Hcases.
    + intros [(rid&action&Hdata) Hun].
      rewrite (callback_on_data _ _ _ _ _ Hdata). cbv zeta. by rewrite Hun.
Qed.

(** ** Looking a report up *)

Lemma find_report_is_Some rid rs :
  is_Some (find_report rid rs) ↔ ∃ r, r ∈ rs ∧ r_id r = rid.
Proof.
  split.
  - intros [[i r] (Hi&Hid&_)%find_report_Some]. exists r. split; [|done].
    by eapply list_elem_of_lookup_2.
  - intros (r&Hr&Hid). destruct (find_report rid rs) eqn:Hfind; [by eexists|].
    rewrite find_report_None in Hfind. by destruct (Hfind r Hr).
Qed.

Lemma status_reply_not_missing r : status_reply r ≠ "Reporte no encontrado.".
Proof.
  intros Heq. apply (f_equal (String.substring 0 7)) in Heq. revert Heq.
  unfold status_reply. destruct (r_response_by r) as [z|]; [destruct (z =? 0)|]; by cbn.
Qed.

Lemma status_on_arg text cmd arg w :
  str_split1 " " (default "" text) = [cmd; arg] → str_strip arg ≠ "" →
  (recovery_status text w).1 =
    match find_report (str_strip arg) (reports_of (STATE w)) with
    | Some (_, r) => status_reply r
    | None => "Reporte no encontrado."
    end.
Proof.
  intros Hsplit Harg. unfold recovery_status. rewrite Hsplit.
  destruct (String.eqb_spec (str_strip arg) ""); [done|].
  by destruct (find_report _ _) as [[??]|].
Qed.

(** C5. Both look-ups return the first report in list order whose id is
    the one asked for, and return one exactly when such a report exists.
    Asked for an id that no report has, the status query answers "Reporte no
    encontrado." (and only then).  The callback looks a report up only for a
    clicker who passed the authorization guard: it then shows that alert
    when no report has the id; a clicker the guard rejects gets
    "not authorized" whether or not the report exists, and the state stays
    as it is.  The status query never changes the reports.  The callback
    changes them only by resolving the pending report it found: that report
    gets its new status, responder and response time and keeps its other
    fields, and every other report stays as it is. *)
Theorem report_lookup rid w :
  let rs := reports_of (STATE w) in
  (is_Some (find_report rid rs) ↔ ∃ r, r ∈ rs ∧ r_id r = rid) ∧
  (∀ i r, find_report rid rs = Some (i, r) ↔
          rs !! i = Some r ∧ r_id r = rid ∧
          ∀ j r', rs !! j = Some r' → (j < i)%nat → r_id r' ≠ rid) ∧
  (∀ text cmd arg,
     str_split1 " " (default "" text) = [cmd; arg] → str_strip arg = rid → rid ≠ "" →
     (recovery_status text w).1 =
       match find_report rid rs with
       | Some (_, r) => status_reply r
       | None => "Reporte no encontrado."
       end ∧
     ((recovery_status text w).1 = "Reporte no encontrado." ↔
      ¬ ∃ r, r ∈ rs ∧ r_id r = rid)) ∧
  (∀ text, reports_of (STATE (recovery_status text w).2) = rs) ∧
  (∀ q now action,
     str_split ":" (default "" (q_data q)) = ["recovery"; rid; action] →
     unauthorized cfg (u_id (q_from_user q)) = false →
     (recovery_callback_handler cfg q now w).1 =
       match find_report rid rs with
       | Some (_, r) =>
           if String.eqb (r_status r) "pending"
           then CbResolved (resolve action (u_id (q_from_user q)) now r)
           else CbAlreadyAnswered
       | None => CbNotFound
       end ∧
     reports_of (STATE (recovery_callback_handler cfg q now w).2) =
       match find_report rid rs with
       | Some (i, r) =>
           if String.eqb (r_status r) "pending"
           then <[i := resolve action (u_id (q_from_user q)) now r]> rs
           else rs
       | None => rs
       end) ∧
  (∀ q now action,
     str_split ":" (default "" (q_data q)) = ["recovery"; rid; action] →
     unauthorized cfg (u_id (q_from_user q)) = true →
     recovery_callback_handler cfg q now w = (CbUnauthorized, w)) ∧
  callback_alert CbNotFound = Some "Reporte no encontrado." ∧
  callback_alert CbUnauthorized = Some "No estás autorizado para responder este reporte." ∧
  (∀ q now,
     (∀ r', (recovery_callback_handler cfg q now w).1 ≠ CbResolved r') →
     reports_of (STATE (recovery_callback_handler cfg q now w).2) = rs) ∧
  (∀ q now r',
     (recovery_callback_handler cfg q now w).1 = CbResolved r' →
     ∃ rid' action i r,
       str_split ":" (default "" (q_data q)) = ["recovery"; rid'; action] ∧
       find_report rid' rs = Some (i, r) ∧ r_status r = "pending" ∧
       reports_of (STATE (recovery_callback_handler cfg q now w).2) = <[i := r']> rs ∧
       (∀ j, j ≠ i →
             reports_of (STATE (recovery_callback_handler cfg q now w).2) !! j = rs !! j) ∧
       r_id r' = r_id r ∧ r_user_id r' = r_user_id r ∧ r_user_name r' = r_user_name r ∧
       r_channel_url r' = r_channel_url r ∧ r_created_at r' = r_created_at r ∧
       r_status r' ≠ "pending" ∧ r_response_by r' = Some (u_id (q_from_user q))).
Proof.
  intros rs. split_and!.
  - apply find_report_is_Some.
  - intros i r. apply find_report_Some.
  - intros text cmd arg Hsplit <- Hne.
    rewrite (status_on_arg _ _ _ _ Hsplit Hne). split; [done|].
    rewrite <- find_report_is_Some. fold rs.
    destruct (find_report (str_strip arg) rs) as [[i r]|].
    + split; [by intros ?%status_reply_not_missing|]. intros []. by eexists.
    + split; [|done]. by intros _ [? [=]].
  - intros text. apply reports_of_status.
  - intros q now action Hdata Hauth.
    rewrite (callback_on_data _ _ _ _ _ Hdata). cbv zeta. rewrite Hauth. fold rs.
    destruct (find_report rid rs) as [[i r]|]; simpl.
    + destruct (String.eqb (r_status r) "pending"); simpl;
        by rewrite reports_of_set_reports.
    + by rewrite reports_of_set_reports.
  - intros q now action Hdata Hauth.
    rewrite (callback_on_data _ _ _ _ _ Hdata). cbv zeta. by rewrite Hauth.
  - done.
  - done.
  - intros q now Hno. by apply callback_reports_unchanged.
  - intros q now r' Ho.
    destruct (callback_cases q now w)
      as [(rid'&action&i&r&Hdata&_&Hfind&Hpen&Ho'&Hw)|[Hno _]];
      [|by destruct (Hno r')].
    rewrite Ho in Ho'. injection Ho' as ->.
    exists rid', action, i, r. rewrite Hw. simpl. rewrite reports_of_set_reports.
    split_and!; try done.
    + intros j Hj. by apply list_lookup_insert_ne.
    + simpl. by destruct (String.eqb action "approve").
Qed.

(** ** Report ids *)

Lemma report_ids_create user url uuid now w :
  report_ids (_create_report cfg user url uuid now w).2 =
    report_ids w ++ [String.substring 0 8 uuid].
Proof. unfold report_ids. rewrite reports_of_create, fmap_app. done. Qed.

Lemma report_ids_callback q now w :
  report_ids (recovery_callback_handler cfg q now w).2 = report_ids w.
Proof.
  unfold report_ids.
  destruct (callback_cases q now w) as [(rid&action&i&r&_&_&Hfind&_&_&->)|[_ [->| ->]]];
    [|done..].
  apply find_report_Some in Hfind as (Hi&_&_).
  simpl. rewrite reports_of_set_reports, list_fmap_insert. simpl.
  apply list_insert_id. by rewrite list_lookup_fmap, Hi.
Qed.

(** Only [_create_report] changes the list of ids, by appending the id drawn. *)
Lemma report_ids_step o w :
  report_ids (step cfg o w) =
    match o with
    | OpCreateReport _ _ uuid _ => report_ids w ++ [String.substring 0 8 uuid]
    | _ => report_ids w
    end.
Proof.
  destruct o as [c|c|k ro co|u url uuid now|q now|text]; simpl;
    [unfold report_ids; by autorewrite with bot_frame..| | |
     unfold report_ids; by autorewrite with bot_frame].
  - apply report_ids_create.
  - apply report_ids_callback.
Qed.

Lemma reachable_run ops w : reachable cfg w → reachable cfg (run cfg ops w).
Proof.
  revert w. induction ops as [|o ops IH]; intros w Hw; [done|].
  simpl. apply IH. by constructor.
Qed.

(** C2 (as amended). Report ids stay pairwise distinct as long as the ids
    drawn are fresh: started in a state whose reports have pairwise
    distinct ids, a run in which every [_create_report] draws an id that
    no report present has ends in such a state.  [_create_report] gives
    the new report the first eight hex digits drawn, whatever the ids
    present, and no other operation changes the ids. *)
Theorem report_ids_unique ops w
    (Hnd : NoDup (report_ids w)) (Hfresh : fresh_draws cfg ops w) :
  NoDup (report_ids (run cfg ops w)) ∧
  (∀ user url uuid now,
     r_id (_create_report cfg user url uuid now w).1 = String.substring 0 8 uuid ∧
     report_ids (_create_report cfg user url uuid now w).2 =
       report_ids w ++ [String.substring 0 8 uuid] ∧
     (String.substring 0 8 uuid ∉ report_ids w →
      NoDup (report_ids (_create_report cfg user url uuid now w).2))) ∧
  (∀ o, report_ids (step cfg o w) =
        match o with
        | OpCreateReport _ _ uuid _ => report_ids w ++ [String.substring 0 8 uuid]
        | _ => report_ids w
        end).
Proof.
  split_and!.
  - revert w Hnd Hfresh. induction ops as [|o ops IH]; intros w Hnd Hfresh; [done|].
    destruct Hfresh as [Ho Hfresh]. simpl. apply IH; [|done]. rewrite report_ids_step.
    destruct o; try done.
    apply NoDup_app. split_and!; [done| |apply NoDup_singleton].
    by intros x Hx ->%list_elem_of_singleton.
  - intros user url uuid now. rewrite report_ids_create. split_and!; [done..|].
    intros Hnew. apply NoDup_app. split_and!; [done| |apply NoDup_singleton].
    by intros x Hx ->%list_elem_of_singleton.
  - intros o. apply report_ids_step.
Qed.

(** ** State store *)

Lemma load_state_present fs text :
  fs !! STATE_FILE cfg = Some text → load_state cfg fs = (json_load_state text, fs).
Proof. intros Hf. unfold load_state. rewrite Hf. cbv zeta. by rewrite Hf. Qed.

Lemma load_state_missing fs :
  fs !! STATE_FILE cfg = None →
  load_state cfg fs =
    (json_load_state (json_dump_state DEFAULT_STATE), save_state cfg DEFAULT_STATE fs).
Proof.
  intros Hf. unfold load_state. rewrite Hf. cbv zeta.
  unfold save_state. by rewrite lookup_insert_eq.
Qed.


(** ** Generation client *)

Lemma py_or_not_null a b : b ≠ VNull → py_or a b ≠ VNull.
Proof. unfold py_or. intros Hb. destruct (truthy a) eqn:Ha; [|done]. by intros ->. Qed.

Lemma py_or_is_str a b :
  string_or_falsy a = true → is_str b = true → is_str (py_or a b) = true.
Proof.
  unfold py_or, string_or_falsy. intros Ha Hb.
  destruct (truthy a); [|done]. by rewrite orb_false_r in Ha.
Qed.

Lemma hf_no_key text :
  HUGGINGFACE_API_KEY cfg = None ∨ HUGGINGFACE_API_KEY cfg = Some "" →
  ∃ msg, hf_generate_text cfg text = inl (RuntimeError msg).
Proof. unfold hf_generate_text. intros [-> | ->]; by eexists. Qed.

Lemma hf_with_key text key :
  HUGGINGFACE_API_KEY cfg = Some key → key ≠ "" →
  hf_generate_text cfg text =
    match json_loads text with
    | None =>
        inl (RuntimeError ("Hugging Face returned non-JSON response: " +:+
                           String.substring 0 400 text))
    | Some data =>
        match error_field data with
        | Some e => inl (RuntimeError ("Hugging Face error: " +:+ str_of_value e))
        | None =>
            match first_dict data with
            | Some d0 => inr (py_or (dict_get "generated_text" d0) (VStr ""))
            | None =>
                match data with
                | VDict d =>
                    inr (py_or (dict_get "generated_text" d)
                           (py_or (dict_get "text" d) (VStr (str_of_value data))))
                | _ => inr (VStr (str_of_value data))
                end
            end
        end
    end.
Proof.
  unfold hf_generate_text. intros -> Hkey.
  by destruct (String.eqb_spec key "").
Qed.

(** C6 (as amended). [hf_generate_text] raises when the API key is unset or
    empty, when the body is not JSON, and when the decoded JSON is a dict
    whose "error" field is truthy.  Otherwise it returns a value, never
    [None]: for a list whose first element is a dict, that element's
    "generated_text" if truthy and "" if not; for a dict, its
    "generated_text" if truthy, else its "text" if truthy, else the
    stringified dict; for every other shape the stringified value.  The
    value is a string whenever the fields it may be taken from hold
    strings. *)
Theorem generation_client_result text :
  (HUGGINGFACE_API_KEY cfg = None ∨ HUGGINGFACE_API_KEY cfg = Some "" →
   ∃ msg, hf_generate_text cfg text = inl (RuntimeError msg)) ∧
  (∀ key, HUGGINGFACE_API_KEY cfg = Some key → key ≠ "" →
     (json_loads text = None →
      ∃ msg, hf_generate_text cfg text = inl (RuntimeError msg)) ∧
     (∀ d, json_loads text = Some (VDict d) → truthy (dict_get "error" d) = true →
      ∃ msg, hf_generate_text cfg text = inl (RuntimeError msg)) ∧
     (∀ data, json_loads text = Some data →
        (∀ d, data = VDict d → truthy (dict_get "error" d) = false) →
        ∃ v, hf_generate_text cfg text = inr v ∧
             v ≠ VNull ∧
             (∀ d0 rest, data = VList (VDict d0 :: rest) →
                v = if truthy (dict_get "generated_text" d0)
                    then dict_get "generated_text" d0 else VStr "") ∧
             (∀ d, data = VDict d →
                v = if truthy (dict_get "generated_text" d) then dict_get "generated_text" d
                    else if truthy (dict_get "text" d) then dict_get "text" d
                    else VStr (str_of_value data)) ∧
             (first_dict data = None → (∀ d, data ≠ VDict d) →
                v = VStr (str_of_value data)) ∧
             (text_fields_ok data → is_str v = true))).
Proof.
  split; [apply hf_no_key|].
  intros key Hkey Hne. rewrite (hf_with_key _ _ Hkey Hne). split_and!.
  - intros ->. by eexists.
  - intros d ->. simpl. intros ->. by eexists.
  - intros data -> Herr.
    assert (error_field data = None) as ->.
    { destruct data; try done. simpl. by rewrite (Herr _ eq_refl). }
    destruct (first_dict data) as [d0|] eqn:Hfirst.
    + eexists. split; [done|].
      destruct data as [| | | | |[|[]]|]; try done. simpl in Hfirst. injection Hfirst as ->.
      split_and!; [by apply py_or_not_null| |done|done|].
      * by intros ?? [= <- _].
      * simpl. intros Hok. by apply py_or_is_str.
    + destruct data as [| | | | |l|d]; try (eexists; split_and!; by try done).
      * eexists. split_and!; try done.
        intros ?? [= ->]. simpl in Hfirst. done.
      * eexists. split; [done|]. split_and!.
        -- by apply py_or_not_null, py_or_not_null.
        -- done.
        -- by intros ? [= <-].
        -- intros _ Hd. by destruct (Hd d).
        -- simpl. intros [Hg Ht]. apply py_or_is_str; [done|]. by apply py_or_is_str.
Qed.

End Properties.

(** * Further properties

    Properties of the same code beyond the statements above: the limits
    of [push_history], invariants of the runs, the discipline of the state
    file, and the command handlers. *)

Section Further.
Context `{RT : PyRuntime} `{TX : PyText} (cfg : Config).

(** ** [push_history] for any limit *)

Lemma history_of_push_positive key role content max_len w :
  1 ≤ max_len →
  history_of key (push_history cfg key role content max_len w) =
    last_n (Z.to_nat max_len) (history_of key w ++ [{| role := role; content := content |}]).
Proof.
  intros Hpos. rewrite history_of_push. cbv zeta.
  set (h := history_of key w ++ _).
  destruct (Z.gtb_spec (Z.of_nat (length h)) max_len) as [Hgt|Hle].
  - rewrite <- (Z2Nat.id max_len) at 1 by lia. apply py_slice_from_neg. lia.
  - unfold last_n. replace (length h - Z.to_nat max_len)%nat with 0%nat by lia. done.
Qed.

Lemma length_last_n {A} (n : nat) (l : list A) : length (last_n n l) = (length l `min` n)%nat.
Proof. unfold last_n. rewrite length_drop. lia. Qed.

Lemma last_n_snoc {A} (n : nat) (l : list A) x :
  (0 < n)%nat → ∃ pre, last_n n (l ++ [x]) = pre ++ [x] ∧ pre = last_n (n - 1) l.
Proof.
  intros Hn. unfold last_n. rewrite length_app. simpl.
  exists (drop (length l - (n - 1)) l). split; [|done].
  rewrite drop_app_le by lia. f_equal. f_equal. lia.
Qed.

(** X1. With a limit [max_len] of at least 1, [push_history] leaves the
    last [max_len] elements of the old history with the new entry
    appended: [min (length old + 1) max_len] entries, the new one last. *)
Theorem push_history_positive_limit key role content max_len w (Hpos : 1 ≤ max_len) :
  let entry := {| role := role; content := content |} in
  let old := history_of key w in
  let new := history_of key (push_history cfg key role content max_len w) in
  new = last_n (Z.to_nat max_len) (old ++ [entry]) ∧
  length new = ((length old + 1) `min` Z.to_nat max_len)%nat ∧
  last new = Some entry.
Proof.
  intros entry old new. subst new. rewrite history_of_push_positive by done.
  fold old entry. split_and!; [done| |].
  - rewrite length_last_n, length_app. done.
  - destruct (last_n_snoc (Z.to_nat max_len) old entry) as (pre & -> & _); [lia|].
    apply last_snoc.
Qed.

(** X2. With a limit of 0 or less the history is trimmed from the front
    instead of being kept to its last entries.  With 0, the slice [h[-0:]]
    is the whole list, so nothing is ever dropped and the history grows by
    one on every push; with [-k] for [k > 0], the slice [h[k:]] drops the [k]
    oldest entries of the appended list, which leaves the history empty as
    soon as [k] exceeds the number of entries it had. *)
Theorem push_history_nonpositive_limit key role content max_len w (Hle : max_len ≤ 0) :
  let entry := {| role := role; content := content |} in
  let old := history_of key w in
  let new := history_of key (push_history cfg key role content max_len w) in
  new = drop (Z.to_nat (- max_len)) (old ++ [entry]) ∧
  length new = (S (length old) - Z.to_nat (- max_len))%nat ∧
  (max_len = 0 → new = old ++ [entry] ∧ length new = S (length old)) ∧
  (new = [] ↔ Z.of_nat (length old) < - max_len).
Proof.
  intros entry old new.
  assert (Hnew : new = drop (Z.to_nat (- max_len)) (old ++ [entry])).
  { subst new. rewrite history_of_push. cbv zeta. fold old entry.
    assert (Hlen : (1 ≤ length (old ++ [entry]))%nat) by (rewrite length_app; simpl; lia).
    destruct (Z.gtb_spec (Z.of_nat (length (old ++ [entry]))) max_len) as [_|?]; [|lia].
    unfold py_slice_from.
    destruct (Z.ltb_spec (- max_len) 0) as [?|_]; [lia|].
    destruct (Z.min_spec (- max_len) (Z.of_nat (length (old ++ [entry]))))
      as [[_ ->]|[Hbig ->]]; [done|].
    rewrite Nat2Z.id, drop_all. symmetry. apply drop_ge. lia. }
  assert (Hlength : length new = (S (length old) - Z.to_nat (- max_len))%nat).
  { rewrite Hnew, length_drop, length_app. simpl. lia. }
  split; [done|]. split; [done|]. split.
  - intros ->. rewrite Hnew. simpl. rewrite drop_0.
    split; [done|]. rewrite length_app. simpl. lia.
  - split.
    + intros Hnil. rewrite Hnil in Hlength. simpl in Hlength. lia.
    + intros Hk. apply nil_length_inv. rewrite Hlength. lia.
Qed.

(** ** What the operations leave alone *)

Lemma histories_of_step o w :
  histories_of (STATE (step cfg o w)) =
    match o with
    | OpPushHistory key role content =>
        <[key := history_of key (push_history cfg key role content 10 w)]>
          (histories_of (STATE w))
    | _ => histories_of (STATE w)
    end.
Proof.
  destruct o as [c|c|k ro co|u url uuid now|q now|text]; simpl.
  - unfold add_moderated_chat. by case_bool_decide.
  - unfold remove_moderated_chat. by case_bool_decide.
  - unfold history_of, push_history, histories_of. simpl. by rewrite lookup_insert_eq.
  - done.
  - by destruct (callback_cases cfg q now w) as [(?&?&?&?&_&_&_&_&_&->)|[_ [->| ->]]].
  - by destruct (status_cases text w) as [-> | ->].
Qed.

(** X3. No run makes a history longer than 10: if no chat has more than
    10 entries, none has after any sequence of operations. *)
Theorem histories_stay_bounded ops w (Hbound : histories_bounded w) :
  histories_bounded (run cfg ops w).
Proof.
  revert w Hbound. induction ops as [|o ops IH]; intros w Hbound; [done|].
  simpl. apply IH. intros key h. rewrite histories_of_step.
  destruct o as [c|c|k ro co|u url uuid now|q now|text]; try apply Hbound.
  destruct (decide (k = key)) as [->|Hne].
  - rewrite lookup_insert_eq. intros [= <-].
    rewrite history_of_push_positive, length_last_n by lia. simpl. lia.
  - rewrite lookup_insert_ne by done. apply Hbound.
Qed.

(** ** Reports along a run *)

Lemma same_request_refl r : same_request r r.
Proof. by repeat split. Qed.

Lemma answered_not_pending r : answered r → r_status r ≠ "pending".
Proof. intros [[Hs|Hs] _]; by rewrite Hs. Qed.

(** One operation leaves a report where it is; the most it does to it is
    answer it while it is pending. *)
Lemma step_report o w i r :
  reports_of (STATE w) !! i = Some r →
  ∃ r', reports_of (STATE (step cfg o w)) !! i = Some r' ∧
        same_request r r' ∧ (r' = r ∨ (r_status r = "pending" ∧ answered r')).
Proof.
  intros Hi.
  assert (Hsame : reports_of (STATE (step cfg o w)) !! i = Some r →
            ∃ r', reports_of (STATE (step cfg o w)) !! i = Some r' ∧
                  same_request r r' ∧ (r' = r ∨ (r_status r = "pending" ∧ answered r'))).
  { intros Hr. exists r. split_and!; [done|apply same_request_refl|by left]. }
  destruct o as [c|c|k ro co|u url uuid now|q now|text]; simpl in *.
  - apply Hsame. by rewrite reports_of_add.
  - apply Hsame. by rewrite reports_of_remove.
  - by apply Hsame.
  - apply Hsame. by apply lookup_app_l_Some.
  - destruct (callback_cases cfg q now w)
      as [(rid&action&j&r0&_&_&Hfind&Hpen&_&Hw)|[_ [Hw|Hw]]];
      [|apply Hsame; by rewrite Hw..].
    rewrite Hw. simpl. rewrite reports_of_set_reports.
    apply find_report_Some in Hfind as (Hj&_&_).
    destruct (decide (i = j)) as [->|Hne].
    + assert (r0 = r) as -> by congruence.
      eexists. split; [apply list_lookup_insert_eq; by eapply lookup_lt_Some|].
      split; [by repeat split|]. right. split; [done|apply resolve_answered].
    + exists r. rewrite list_lookup_insert_ne by done.
      split_and!; [done|apply same_request_refl|by left].
  - apply Hsame. by rewrite reports_of_status.
Qed.

(** X4. Reports are never removed, moved or rewritten.  Along any sequence
    of operations a report stays at its position with its id, user id,
    user name, channel URL and creation time; it is either what it was,
    or it was pending and has been answered. *)
Theorem report_only_ever_answered ops w i r (Hi : reports_of (STATE w) !! i = Some r) :
  ∃ r', reports_of (STATE (run cfg ops w)) !! i = Some r' ∧
        same_request r r' ∧ (r' = r ∨ (r_status r = "pending" ∧ answered r')).
Proof.
  revert w r Hi. induction ops as [|o ops IH]; intros w r Hi.
  - exists r. split_and!; [done|apply same_request_refl|by left].
  - simpl. destruct (step_report o w i r Hi) as (r1 & Hi1 & Hreq1 & Hcase1).
    destruct (IH _ _ Hi1) as (r' & Hi' & Hreq' & Hcase').
    exists r'. split; [done|]. split.
    + destruct Hreq1 as (?&?&?&?&?), Hreq' as (?&?&?&?&?). repeat split; congruence.
    + destruct Hcase1 as [->|[Hpen Hans1]]; [done|]. right. split; [done|].
      destruct Hcase' as [->|[Hpen1 _]]; [done|].
      by destruct (answered_not_pending _ Hans1).
Qed.

(** X5. The lifecycle is an invariant of the runs: if every report is
    either pending with no responder and no response time, or
    "provided"/"denied" with both recorded, the same holds after any
    sequence of operations. *)
Theorem lifecycle_is_invariant ops w (Hall : Forall in_lifecycle (reports_of (STATE w))) :
  Forall in_lifecycle (reports_of (STATE (run cfg ops w))).
Proof.
  revert w Hall. induction ops as [|o ops IH]; intros w Hall; [done|].
  simpl. apply IH. by apply step_lifecycle.
Qed.

(** Where a report sits behind an older one with its id, one operation
    leaves it exactly as it is, and the older one keeps the id. *)
Lemma step_shadowed o w i j r_first r :
  (i < j)%nat →
  reports_of (STATE w) !! i = Some r_first →
  reports_of (STATE w) !! j = Some r →
  r_id r_first = r_id r →
  reports_of (STATE (step cfg o w)) !! j = Some r ∧
  ∃ r_first', reports_of (STATE (step cfg o w)) !! i = Some r_first' ∧ r_id r_first' = r_id r.
Proof.
  intros Hij Hi Hj Hid.
  destruct (step_report o w i r_first Hi) as (r_first' & Hi' & (Hid' & _) & _).
  split; [|exists r_first'; split; [done|congruence]].
  destruct o as [c|c|k ro co|u url uuid now|q now|text]; simpl.
  - by rewrite reports_of_add.
  - by rewrite reports_of_remove.
  - done.
  - by apply lookup_app_l_Some.
  - destruct (callback_cases cfg q now w)
      as [(rid&action&k&r0&_&_&Hfind&_&_&->)|[_ [->| ->]]]; [|done..].
    simpl. rewrite reports_of_set_reports.
    apply find_report_Some in Hfind as (Hk&Hrid&Hfirst).
    rewrite list_lookup_insert_ne; [done|]. intros ->.
    assert (r0 = r) as -> by congruence.
    apply (Hfirst i r_first Hi Hij). congruence.
  - by rewrite reports_of_status.
Qed.

(** X6. A report whose id an older report already has can never be
    answered, nor looked up: both look-ups stop at the older report, so
    through any sequence of operations the later one stays exactly as it
    is, and looking its id up returns a report at or before the older one. *)
Theorem shadowed_report_is_stuck ops w i j r_first r
    (Hij : (i < j)%nat)
    (Hi : reports_of (STATE w) !! i = Some r_first)
    (Hj : reports_of (STATE w) !! j = Some r)
    (Hid : r_id r_first = r_id r) :
  reports_of (STATE (run cfg ops w)) !! j = Some r ∧
  ∃ k r', find_report (r_id r) (reports_of (STATE (run cfg ops w))) = Some (k, r') ∧
          (k ≤ i)%nat.
Proof.
  revert w r_first Hi Hj Hid. induction ops as [|o ops IH]; intros w r_first Hi Hj Hid.
  - split; [done|]. simpl.
    destruct (find_report (r_id r) (reports_of (STATE w))) as [[k r']|] eqn:Hfind.
    + exists k, r'. split; [done|].
      apply find_report_Some in Hfind as (_&_&Hfirst).
      destruct (decide (k ≤ i)%nat) as [|Hgt]; [done|].
      destruct (Hfirst i r_first Hi); [lia|done].
    + rewrite find_report_None in Hfind.
      destruct (Hfind r_first); [by eapply list_elem_of_lookup_2|done].
  - simpl. destruct (step_shadowed o w i j r_first r Hij Hi Hj Hid)
      as (Hj' & r_first' & Hi' & Hid').
    by apply (IH _ r_first').
Qed.

(** ** The state file *)

(** X7. [load_state] never overwrites a state file that exists, whatever
    it holds (it returns what the codec makes of it); it writes no other
    file; loading twice gives what loading once gives; and of two
    [save_state] in a row only the second is on disk. *)
Theorem state_file_discipline fs :
  (∀ text, fs !! STATE_FILE cfg = Some text →
           load_state cfg fs = (json_load_state text, fs)) ∧
  (∀ path, path ≠ STATE_FILE cfg → (load_state cfg fs).2 !! path = fs !! path) ∧
  load_state cfg (load_state cfg fs).2 = load_state cfg fs ∧
  (∀ st1 st2, save_state cfg st2 (save_state cfg st1 fs) = save_state cfg st2 fs) ∧
  (∀ st path, path ≠ STATE_FILE cfg → save_state cfg st fs !! path = fs !! path).
Proof.
  split_and!.
  - intros text. apply load_state_present.
  - intros path Hpath. destruct (fs !! STATE_FILE cfg) as [text|] eqn:Hfile.
    + by rewrite (load_state_present _ _ _ Hfile).
    + rewrite (load_state_missing cfg fs Hfile). simpl. unfold save_state.
      by rewrite lookup_insert_ne.
  - destruct (fs !! STATE_FILE cfg) as [text|] eqn:Hfile.
    + rewrite (load_state_present _ _ _ Hfile). simpl. by apply load_state_present.
    + rewrite (load_state_missing cfg fs Hfile). simpl.
      apply load_state_present. unfold save_state. apply lookup_insert_eq.
  - intros st1 st2. unfold save_state. apply insert_insert_eq.
  - intros st path Hpath. unfold save_state. by rewrite lookup_insert_ne.
Qed.

Lemma persist_in_sync w : in_sync cfg (persist cfg w).
Proof. unfold in_sync, persist, save_state. simpl. apply lookup_insert_eq. Qed.

Lemma set_histories_id st h : histories st = Some h → set_histories h st = st.
Proof. destruct st; simpl; by intros ->. Qed.



(** ** Strings: cutting and searching *)

Lemma str_split_no_sep sep s : str_has sep s = false → str_split sep s = [s].
Proof.
  induction s as [|c s IH]; [done|]. simpl.
  intros [Hc Hs]%orb_false_iff. rewrite Hc, IH by done. done.
Qed.

(** Up to the first separator, then the rest. *)
Lemma str_split_cut sep a b :
  str_has sep a = false →
  str_split sep (a +:+ String sep b) = a :: str_split sep b.
Proof.
  induction a as [|c a IH].
  - intros _. change ("" +:+ String sep b) with (String sep b). simpl.
    by rewrite Ascii.eqb_refl.
  - simpl. intros [Hc Ha]%orb_false_iff. rewrite Hc, IH by done. done.
Qed.

Lemma str_split1_no_sep sep s : str_has sep s = false → str_split1 sep s = [s].
Proof.
  induction s as [|c s IH]; [done|]. simpl.
  intros [Hc Hs]%orb_false_iff. rewrite Hc, IH by done. done.
Qed.

Lemma str_split1_cut sep a b :
  str_has sep a = false → str_split1 sep (a +:+ String sep b) = [a; b].
Proof.
  induction a as [|c a IH].
  - intros _. change ("" +:+ String sep b) with (String sep b). simpl.
    by rewrite Ascii.eqb_refl.
  - simpl. intros [Hc Ha]%orb_false_iff. rewrite Hc, IH by done. done.
Qed.

Lemma prefix_spec w t : String.prefix w t = true ↔ ∃ b, t = w +:+ b.
Proof.
  revert t. induction w as [|c w IH]; intros [|c' t]; simpl.
  - split; [|done]. intros _. by exists "".
  - split; [|done]. intros _. by exists (String c' t).
  - split; [done|]. by intros [b [=]].
  - destruct (ascii_dec c c') as [->|Hne].
    + rewrite IH. split; intros [b Hb]; exists b.
      * rewrite str_app_cons. congruence.
      * rewrite str_app_cons in Hb. congruence.
    + split; [done|]. intros [b Hb]. rewrite str_app_cons in Hb. congruence.
Qed.

(** [str_contains w text] is Python's [w in text]: [w] occurs somewhere. *)
Lemma str_contains_spec w text :
  str_contains w text = true ↔ ∃ a b, text = a +:+ w +:+ b.
Proof.
  induction text as [|c text IH].
  - cbn [str_contains]. rewrite orb_false_r, prefix_spec. split.
    + intros [b Hb]. by exists "", b.
    + intros (a & b & Hab). destruct a; [by exists b|done].
  - cbn [str_contains]. rewrite orb_true_iff, prefix_spec, IH. split.
    + intros [[b Hb]|(a & b & Hab)]; [by exists "", b|].
      exists (String c a), b. rewrite str_app_cons. by rewrite Hab.
    + intros (a & b & Hab). destruct a as [|c' a].
      * left. by exists b.
      * right. exists a, b. rewrite str_app_cons in Hab. congruence.
Qed.

(** ** /report_recovery and the buttons *)

(** X9. The data of the two buttons is read back by the callback handler:
    for a report id without a colon, as every hexadecimal id is, the data
    of the first button splits into "recovery", the id and "approve", that
    of the second into "recovery", the id and "deny". *)
Theorem keyboard_data_round_trip report_id (Hid : str_has ":" report_id = false) :
  (λ button, str_split ":" button.2) <$> recovery_keyboard report_id
    = [ ["recovery"; report_id; "approve"]; ["recovery"; report_id; "deny"] ].
Proof.
  assert (Hcut : ∀ action, str_has ":" action = false →
            str_split ":" ("recovery:" +:+ report_id +:+ ":" +:+ action)
            = ["recovery"; report_id; action]).
  { intros action Haction.
    change ("recovery:" +:+ report_id +:+ ":" +:+ action)
      with ("recovery" +:+ String ":" (report_id +:+ String ":" action)).
    rewrite str_split_cut by done. rewrite str_split_cut by done.
    by rewrite str_split_no_sep. }
  unfold recovery_keyboard. rewrite !fmap_cons, fmap_nil. cbv beta. cbn [snd].
  f_equal; [by apply (Hcut "approve")|]. f_equal. by apply (Hcut "deny").
Qed.

Lemma report_recovery_world user text url uuid now w :
  command_arg text = Some url →
  (report_recovery cfg user text uuid now w).2 = (_create_report cfg user url uuid now w).2.
Proof.
  intros Harg. unfold report_recovery. rewrite Harg. cbv zeta.
  destruct (RECOVERY_CHAT_ID cfg) as [chat|]; [|done].
  destruct (String.eqb chat ""); [done|]. by destruct (int_of_str chat).
Qed.

(** X10. A report is stored whether or not the recovery team can be told.
    With a non-blank argument [report_recovery] leaves the world that
    [_create_report] makes, in which the stripped argument is the channel
    URL of a pending report at the end of the list, and first replies with
    the id; the notice with the buttons goes out exactly when
    [RECOVERY_CHAT_ID] is set, non-empty, and reads as an integer.  With a
    blank argument the world is unchanged. *)
Theorem report_recovery_stores_report user text uuid now w :
  let out := (report_recovery cfg user text uuid now w).1 in
  let w' := (report_recovery cfg user text uuid now w).2 in
  (command_arg text = None → w' = w ∧ ∃ usage, out = [Reply usage]) ∧
  (∀ url, command_arg text = Some url →
     let report := (_create_report cfg user url uuid now w).1 in
     w' = (_create_report cfg user url uuid now w).2 ∧
     last (reports_of (STATE w')) = Some report ∧
     r_channel_url report = url ∧ r_status report = "pending" ∧
     in_sync cfg w' ∧
     (∃ rest, out = Reply ("Reporte creado (ID: " +:+ r_id report +:+
                          "). Tu solicitud será revisada por el equipo de recuperación.")
                    :: rest) ∧
     ((∃ chat_id notice keyboard, SendMessage chat_id notice keyboard ∈ out) ↔
      ∃ chat, RECOVERY_CHAT_ID cfg = Some chat ∧ chat ≠ "" ∧ is_Some (int_of_str chat))).
Proof.
  cbv zeta. split.
  - intros Harg. unfold report_recovery. rewrite Harg. split; [done|by eexists].
  - intros url Harg. rewrite (report_recovery_world _ _ _ _ _ _ Harg).
    split_and!; [done| |done|done|apply persist_in_sync| |].
    + rewrite reports_of_create. apply last_snoc.
    + unfold report_recovery. rewrite Harg. cbv zeta.
      destruct (RECOVERY_CHAT_ID cfg) as [chat|]; [|by eexists].
      destruct (String.eqb chat ""); [by eexists|].
      destruct (int_of_str chat); by eexists.
    + unfold report_recovery. rewrite Harg. cbv zeta.
      destruct (RECOVERY_CHAT_ID cfg) as [chat|] eqn:Hchat.
      * destruct (String.eqb_spec chat "") as [->|Hne].
        -- split.
           ++ intros (c & n & k & Hin). apply elem_of_cons in Hin as [[=]|Hin].
              apply list_elem_of_singleton in Hin. done.
           ++ intros (chat' & [= <-] & Hne & _). done.
        -- destruct (int_of_str chat) as [recovery_chat|] eqn:Hint.
           ++ split; [|intros _; do 3 eexists; apply list_elem_of_further, list_elem_of_here].
              intros _. exists chat. by rewrite Hint.
           ++ split.
              ** intros (c & n & k & Hin). apply elem_of_cons in Hin as [[=]|Hin].
                 apply list_elem_of_singleton in Hin. done.
              ** intros (chat' & [= <-] & _ & [? Hsome]). congruence.
      * split.
        -- intros (c & n & k & Hin). apply elem_of_cons in Hin as [[=]|Hin].
           apply list_elem_of_singleton in Hin. done.
        -- by intros (chat' & [=] & _).
Qed.

(** X11. From the report to its answer.  When the notice goes out, the id
    drawn is new and has no colon, and the clicker passes the guard, a
    click on either button of the notice resolves the report just
    created: in the state the click leaves, the reports are those there
    were before the request followed by the answered report, which has the
    user and channel of the request, the clicker as responder, and the
    status "provided" for the first button and "denied" for the second;
    that state is the one on disk. *)
Theorem report_then_click user text url uuid now w chat recovery_chat clicker now_click message
    (Harg : command_arg text = Some url)
    (Hchat : RECOVERY_CHAT_ID cfg = Some chat)
    (Hset : chat ≠ "")
    (Hint : int_of_str chat = Some recovery_chat)
    (Hnew : String.substring 0 8 uuid ∉ report_ids w)
    (Hhex : str_has ":" (String.substring 0 8 uuid) = false)
    (Hauth : unauthorized cfg (u_id clicker) = false) :
  let report_id := String.substring 0 8 uuid in
  let w' := (report_recovery cfg user text uuid now w).2 in
  let click data :=
    recovery_callback_handler cfg
      {| q_data := Some data; q_from_user := clicker; q_message_text := message |}
      now_click w' in
  (∃ created notice,
     (report_recovery cfg user text uuid now w).1
       = [created; SendMessage recovery_chat notice (recovery_keyboard report_id)]) ∧
  (∃ pending, reports_of (STATE w') = reports_of (STATE w) ++ [pending] ∧
              r_id pending = report_id ∧ r_status pending = "pending") ∧
  (∀ label data, (label, data) ∈ recovery_keyboard report_id →
     ∃ answer, (click data).1 = CbResolved answer ∧
               reports_of (STATE (click data).2) = reports_of (STATE w) ++ [answer] ∧
               r_id answer = report_id ∧
               r_user_id answer = u_id user ∧
               r_channel_url answer = url ∧
               r_status answer ≠ "pending" ∧
               r_response_by answer = Some (u_id clicker) ∧
               in_sync cfg (click data).2) ∧
  (∃ answer,
     reports_of (STATE (click ("recovery:" +:+ report_id +:+ ":approve")).2)
       = reports_of (STATE w) ++ [answer] ∧
     r_status answer = "provided") ∧
  (∃ answer,
     reports_of (STATE (click ("recovery:" +:+ report_id +:+ ":deny")).2)
       = reports_of (STATE w) ++ [answer] ∧
     r_status answer = "denied").
Proof.
  intros report_id w' click.
  set (report := (_create_report cfg user url uuid now w).1).
  assert (Hw' : w' = (_create_report cfg user url uuid now w).2)
    by by apply report_recovery_world.
  assert (Hreports : reports_of (STATE w') = reports_of (STATE w) ++ [report])
    by (rewrite Hw'; apply reports_of_create).
  assert (Hfind : find_report report_id (reports_of (STATE w'))
                  = Some (length (reports_of (STATE w)), report)).
  { rewrite Hreports. apply find_report_Some. split_and!.
    - by rewrite lookup_app_r, Nat.sub_diag.
    - done.
    - intros j r' Hj Hlt Hid. rewrite lookup_app_l in Hj by done.
      apply Hnew. unfold report_ids. apply list_elem_of_fmap.
      exists r'. split; [done|]. by eapply list_elem_of_lookup_2. }
  assert (Hclick : ∀ action, str_has ":" action = false →
            let answer := resolve action (u_id clicker) now_click report in
            (click ("recovery:" +:+ report_id +:+ ":" +:+ action)).1 = CbResolved answer ∧
            reports_of (STATE (click ("recovery:" +:+ report_id +:+ ":" +:+ action)).2)
              = reports_of (STATE w) ++ [answer] ∧
            in_sync cfg (click ("recovery:" +:+ report_id +:+ ":" +:+ action)).2).
  { intros action Haction. subst click. cbv beta zeta.
    rewrite (callback_on_data cfg _ _ _ report_id action).
    - cbv zeta. simpl q_from_user. rewrite Hauth, Hfind. simpl.
      split; [done|]. split; [|apply persist_in_sync].
      rewrite reports_of_set_reports, Hreports.
      rewrite insert_app_r_alt, Nat.sub_diag by done. done.
    - simpl q_data. simpl default.
      change ("recovery:" +:+ report_id +:+ ":" +:+ action)
        with ("recovery" +:+ String ":" (report_id +:+ String ":" action)).
      rewrite str_split_cut by done. rewrite str_split_cut by done.
      by rewrite str_split_no_sep. }
  split_and!.
  - unfold report_recovery. rewrite Harg. cbv zeta. rewrite Hchat.
    destruct (String.eqb_spec chat ""); [done|]. rewrite Hint. by do 2 eexists.
  - by exists report.
  - intros label data Hin. unfold recovery_keyboard in Hin.
    apply elem_of_cons in Hin as [[= -> ->]|Hin];
      [|apply list_elem_of_singleton in Hin as [= -> ->]].
    + destruct (Hclick "approve" eq_refl) as (Ho & Hrs & Hsync).
      eexists. split; [exact Ho|]. split; [exact Hrs|]. by split_and!.
    + destruct (Hclick "deny" eq_refl) as (Ho & Hrs & Hsync).
      eexists. split; [exact Ho|]. split; [exact Hrs|]. by split_and!.
  - destruct (Hclick "approve" eq_refl) as (_ & Hrs & _).
    eexists. split; [exact Hrs|done].
  - destruct (Hclick "deny" eq_refl) as (_ & Hrs & _).
    eexists. split; [exact Hrs|done].
Qed.

(** ** Moderation *)

Lemma delete_if_banned_spec words text chat_id m :
  delete_if_banned words text chat_id m =
    if existsb (λ bw, str_contains bw text) words
    then [DeleteMessage chat_id (message_id m)] else [].
Proof.
  induction words as [|bw words IH]; [done|]. simpl.
  by destruct (str_contains bw text).
Qed.

Lemma message_handler_text chat_id m t w :
  m_text m = Some t → t ≠ "" →
  message_handler chat_id (Some m) w =
    if is_chat_moderated chat_id w && existsb (λ bw, str_contains bw (str_lower t)) BANNED_WORDS
    then [DeleteMessage chat_id (message_id m)] else [].
Proof.
  intros Ht Hne. unfold message_handler. rewrite Ht.
  destruct (String.eqb_spec t ""); [done|].
  destruct (is_chat_moderated chat_id w); [|done]. apply delete_if_banned_spec.
Qed.

(** X12. What [message_handler] deletes.  It asks for at most one deletion,
    that of the message it was given, and asks for it exactly when the
    message has a non-empty text, the chat is moderated, and a banned word
    occurs somewhere in the lower-cased text. *)
Theorem message_handler_deletes chat_id msg w :
  let out := message_handler chat_id msg w in
  (out = [] ∨ ∃ m, msg = Some m ∧ out = [DeleteMessage chat_id (message_id m)]) ∧
  (out ≠ [] ↔
   ∃ m t bw before after,
     msg = Some m ∧ m_text m = Some t ∧ t ≠ "" ∧
     is_chat_moderated chat_id w = true ∧
     bw ∈ BANNED_WORDS ∧ str_lower t = before +:+ bw +:+ after).
Proof.
  cbv zeta. destruct msg as [m|]; [|split; [by left|]; split; [done|by intros (?&?&?&?&?&[=]&_)]].
  destruct (m_text m) as [t|] eqn:Ht;
    [|unfold message_handler; rewrite Ht; split; [by left|];
      split; [done|intros (?&?&?&?&?&[= <-]&?&_); congruence]].
  destruct (String.eqb_spec t "") as [->|Hne].
  { unfold message_handler. rewrite Ht. simpl. split; [by left|].
    split; [done|intros (?&?&?&?&?&[= <-]&?&?&_); congruence]. }
  rewrite (message_handler_text _ _ _ _ Ht Hne).
  destruct (is_chat_moderated chat_id w) eqn:Hmod; cbn [andb].
  - destruct (existsb (λ bw, str_contains bw (str_lower t)) BANNED_WORDS) eqn:Hex.
    + split; [right; by exists m|]. split; [|done]. intros _.
      apply existsb_exists in Hex as (bw & Hbw & (before & after & Hocc)%str_contains_spec).
      exists m, t, bw, before, after. split_and!; try done. by apply list_elem_of_In.
    + split; [by left|]. split; [done|].
      intros (m' & t' & bw & before & after & [= <-] & Ht' & _ & _ & Hbw & Hocc).
      assert (t' = t) as -> by congruence.
      assert (existsb (λ bw, str_contains bw (str_lower t)) BANNED_WORDS = true) as Hyes.
      { apply existsb_exists. exists bw. split; [by apply list_elem_of_In|].
        apply str_contains_spec. by exists before, after. }
      congruence.
  - split; [by left|]. split; [done|]. by intros (?&?&?&?&?&_&_&_&[=]&_).
Qed.

(** X13. Only an administrator or the owner changes the moderation of a
    chat.  [moderate_on] leaves the world as it is in a private chat, when
    the membership look-up fails, and for any other member; [moderate_off]
    does so when the look-up fails and for any other member, but does not
    ask whether the chat is private.  For an administrator or the owner,
    [moderate_on] (outside a private chat) is [add_moderated_chat] and
    [moderate_off] is [remove_moderated_chat]. *)
Theorem moderation_needs_admin chat_type chat_id member w :
  ((chat_type = "private" ∨ member = None ∨
    (∃ m, member = Some m ∧ m ≠ OWNER ∧ m ≠ ADMINISTRATOR)) →
   (moderate_on cfg chat_type chat_id member w).2 = w) ∧
  ((member = None ∨ (∃ m, member = Some m ∧ m ≠ OWNER ∧ m ≠ ADMINISTRATOR)) →
   (moderate_off cfg chat_id member w).2 = w) ∧
  (member = Some OWNER ∨ member = Some ADMINISTRATOR →
   (chat_type ≠ "private" →
    (moderate_on cfg chat_type chat_id member w).2 = add_moderated_chat cfg chat_id w ∧
    is_chat_moderated chat_id (moderate_on cfg chat_type chat_id member w).2 = true) ∧
   (moderate_off cfg chat_id member w).2 = remove_moderated_chat cfg chat_id w).
Proof.
  split_and!.
  - unfold moderate_on. intros [->|[->|(m & -> & Ho & Ha)]].
    + done.
    + by destruct (String.eqb chat_type "private").
    + destruct (String.eqb chat_type "private"); [done|]. by destruct m.
  - unfold moderate_off. intros [->|(m & -> & Ho & Ha)]; [done|]. by destruct m.
  - intros Hadmin.
    assert (Hon : chat_type ≠ "private" →
              (moderate_on cfg chat_type chat_id member w).2 = add_moderated_chat cfg chat_id w).
    { intros Htype. unfold moderate_on.
      destruct (String.eqb_spec chat_type "private"); [done|].
      by destruct Hadmin as [-> | ->]. }
    split.
    + intros Htype. rewrite (Hon Htype). split; [done|].
      unfold is_chat_moderated. rewrite chats_of_add. apply bool_decide_eq_true.
      case_bool_decide; [done|]. apply elem_of_app. right. apply list_elem_of_here.
    + unfold moderate_off. by destruct Hadmin as [-> | ->].
Qed.

(** X14. Moderation switched on and off.  After an administrator's
    [moderate_on] in a group, a message with a banned word in it is
    deleted; after an administrator's [moderate_off], on a list that held
    no chat twice, it is not; and if the chat was not moderated to begin
    with, on and off bring the list of moderated chats back to what it
    was. *)
Theorem moderation_switch chat_type chat_id w m t bw before after
    (Htype : chat_type ≠ "private")
    (Hnd : NoDup (chats_of (STATE w)))
    (Ht : m_text m = Some t) (Hne : t ≠ "")
    (Hbw : bw ∈ BANNED_WORDS) (Hocc : str_lower t = before +:+ bw +:+ after) :
  let on := (moderate_on cfg chat_type chat_id (Some ADMINISTRATOR) w).2 in
  let off := (moderate_off cfg chat_id (Some ADMINISTRATOR) on).2 in
  message_handler chat_id (Some m) on = [DeleteMessage chat_id (message_id m)] ∧
  message_handler chat_id (Some m) off = [] ∧
  (is_chat_moderated chat_id w = false → chats_of (STATE off) = chats_of (STATE w)).
Proof.
  intros on off.
  assert (Hon : on = add_moderated_chat cfg chat_id w).
  { subst on. unfold moderate_on. by destruct (String.eqb_spec chat_type "private"). }
  assert (Hoff : off = remove_moderated_chat cfg chat_id on) by done.
  assert (Hex : existsb (λ bw, str_contains bw (str_lower t)) BANNED_WORDS = true).
  { apply existsb_exists. exists bw. split; [by apply list_elem_of_In|].
    apply str_contains_spec. by exists before, after. }
  assert (Hmod_on : is_chat_moderated chat_id on = true).
  { rewrite Hon. unfold is_chat_moderated. rewrite chats_of_add. apply bool_decide_eq_true.
    case_bool_decide; [done|]. apply elem_of_app. right. apply list_elem_of_here. }
  assert (Hmod_off : is_chat_moderated chat_id off = false).
  { rewrite Hoff. unfold is_chat_moderated. rewrite chats_of_remove.
    apply bool_decide_eq_false. apply (list_remove_NoDup chat_id).
    rewrite Hon. by apply add_moderated_chat_NoDup. }
  split_and!.
  - rewrite (message_handler_text _ _ _ _ Ht Hne). by rewrite Hmod_on, Hex.
  - rewrite (message_handler_text _ _ _ _ Ht Hne). by rewrite Hmod_off.
  - intros Hnot. apply bool_decide_eq_false in Hnot.
    rewrite Hoff, chats_of_remove, Hon, chats_of_add.
    rewrite bool_decide_eq_false_2 by done.
    clear -Hnot. induction (chats_of (STATE w)) as [|y l IH]; simpl.
    + by rewrite bool_decide_eq_true_2.
    + apply not_elem_of_cons in Hnot as [Hy Hl].
      rewrite bool_decide_eq_false_2 by done. f_equal. by apply IH.
Qed.

(** ** /generate_script *)

Lemma script_filename_known lang :
  script_filename lang ∈
    ["script.py"; "script.js"; "script.ts"; "script.sh"; "script.go";
     "script.java"; "script.rb"; "script.php"; "script.txt"].
Proof.
  unfold script_filename.
  destruct (assoc (str_lower lang) EXT_MAP) as [ext|] eqn:Hext; simpl.
  - unfold EXT_MAP in Hext. simpl in Hext.
    repeat match type of Hext with
           | (if ?b then _ else _) = Some _ =>
               destruct b; [injection Hext as <-; clear|]
           end; try done;
      repeat first [apply list_elem_of_here | apply list_elem_of_further].
  - repeat first [apply list_elem_of_here | apply list_elem_of_further].
Qed.

(** X15. The language the user types never reaches the file system: a
    script is attached under one of nine fixed names.  A document goes out
    only when the generation returned a string and writing and sending
    went through; it is the last thing sent, and its content is the name
    of the temporary file, which is what the code hands to [InputFile],
    whatever the generated code was. *)
Theorem script_file_name_is_fixed text backend tmp_path attach_ok out name content
    (Hrun : generate_script cfg text backend tmp_path attach_ok = Done out ∨
            generate_script cfg text backend tmp_path attach_ok = Crashed out)
    (Hdoc : SendDocument name content ∈ out) :
  name ∈ ["script.py"; "script.js"; "script.ts"; "script.sh"; "script.go";
          "script.java"; "script.rb"; "script.php"; "script.txt"] ∧
  attach_ok = true ∧
  content = tmp_path ∧
  ∃ body code,
    command_arg text = Some body ∧
    hf_generate_text cfg
      (backend (script_prompt (script_request body).1 (script_request body).2))
      = inr (VStr code) ∧
    name = script_filename (script_request body).1 ∧
    generate_script cfg text backend tmp_path attach_ok
      = Done [Reply ("Generando script en " +:+ (script_request body).1 +:+ " con Mistral...");
              Reply "Aquí está el código generado (también te lo adjunto como archivo):";
              SendDocument name tmp_path].
Proof.
  unfold generate_script in *.
  destruct (command_arg text) as [body|].
  2: { destruct Hrun as [[= <-]|[=]]. by apply list_elem_of_singleton in Hdoc. }
  cbv zeta in *.
  destruct (hf_generate_text cfg (backend _)) as [[e]|v] eqn:Hgen.
  { destruct Hrun as [[= <-]|[=]].
    apply elem_of_cons in Hdoc as [[=]|Hdoc]. by apply list_elem_of_singleton in Hdoc. }
  assert (Hno : ∀ a b, SendDocument name content ∈ [Reply a; Reply b] → False).
  { intros a b Hin. apply elem_of_cons in Hin as [[=]|Hin].
    by apply list_elem_of_singleton in Hin. }
  destruct v as [| | | |s| |];
    try (destruct Hrun as [[=]|[= <-]]; by destruct (Hno _ _ Hdoc)).
  destruct attach_ok.
  - destruct Hrun as [[= <-]|[=]].
    apply elem_of_cons in Hdoc as [[=]|Hdoc].
    apply elem_of_cons in Hdoc as [[=]|Hdoc].
    apply list_elem_of_singleton in Hdoc as [= -> ->].
    split_and!; [apply script_filename_known|done|done|].
    by exists body, s.
  - destruct Hrun as [[= <-]|[=]].
    apply elem_of_cons in Hdoc as [[=]|Hdoc]. by destruct (Hno _ _ Hdoc).
Qed.

(** X16. The request is cut at the first bar only: what stands before it,
    stripped, is the language and all that follows, stripped, is the
    description, further bars included.  Without a bar the language is
    "txt" and the whole argument is the description. *)
Theorem script_request_cut body :
  (str_has "|" body = false → script_request body = ("txt", body)) ∧
  (∀ lang rest, str_has "|" lang = false → body = lang +:+ "|" +:+ rest →
     script_request body = (str_strip lang, str_strip rest) ∧
     str_has "|" body = true).
Proof.
  split.
  - intros Hno. unfold script_request. by rewrite str_split1_no_sep.
  - intros lang rest Hlang ->. split.
    + unfold script_request.
      change (lang +:+ "|" +:+ rest) with (lang +:+ String "|" rest).
      by rewrite str_split1_cut.
    + clear Hlang. induction lang as [|c lang IH]; [done|].
      rewrite str_app_cons. simpl. rewrite IH. apply orb_true_r.
Qed.

(** X17. [generate_script] ends in an uncaught exception exactly when the
    generation returned a value that is not a string.  What it has sent by
    then is the announcement and the line telling the user that the code
    follows, and nothing after it: neither a document nor the code. *)
Theorem generate_script_crash text backend tmp_path attach_ok out :
  generate_script cfg text backend tmp_path attach_ok = Crashed out ↔
  ∃ body v,
    command_arg text = Some body ∧
    hf_generate_text cfg
      (backend (script_prompt (script_request body).1 (script_request body).2)) = inr v ∧
    is_str v = false ∧
    out = [Reply ("Generando script en " +:+ (script_request body).1 +:+ " con Mistral...");
           Reply "Aquí está el código generado (también te lo adjunto como archivo):"].
Proof.
  unfold generate_script. split.
  - intros Hrun. destruct (command_arg text) as [body|]; [|done].
    cbv zeta in Hrun.
    destruct (hf_generate_text cfg (backend _)) as [[e]|v] eqn:Hgen; [done|].
    exists body, v.
    destruct v; try (injection Hrun as <-; by split_and!).
    by destruct attach_ok.
  - intros (body & v & -> & Hgen & Hstr & ->). cbv zeta. rewrite Hgen.
    by destruct v.
Qed.

(** ** /chat *)

Lemma foldl_history_snoc (l : list HistoryEntry) item :
  foldl (λ accumulated item, accumulated +:+ history_line item) "" (l ++ [item]) =
  foldl (λ accumulated item, accumulated +:+ history_line item) "" l +:+ history_line item.
Proof. by rewrite foldl_app. Qed.

(** X18. The model is shown the message twice.  [chat_cmd] pushes the
    message to the history before it builds the prompt from the history
    and then appends the message again: on a non-blank message the one
    prompt [chat_cmd] posts is the heading, the lines of the last nine
    entries the history had, the line of the message, a blank line, and
    the same line once more; what [chat_cmd] replies and records is
    decided by the generation on that prompt. *)
Theorem chat_prompt_repeats_message chat_id text user_msg backend w
    (Harg : command_arg text = Some user_msg) :
  let key := pretty chat_id in
  let earlier :=
    foldl (λ accumulated item, accumulated +:+ history_line item) ""
          (last_n 9 (history_of key w)) in
  let prompt :=
    "Eres un asistente conversacional útil y conciso." +:+ nl +:+ nl +:+
    earlier +:+
    "Usuario: " +:+ user_msg +:+ nl +:+
    nl +:+ "Usuario: " +:+ user_msg +:+ nl +:+ "Asistente:" in
  let w1 := push_history cfg key "user" user_msg 10 w in
  chat_cmd cfg chat_id text backend w =
    match hf_generate_text cfg (backend prompt) with
    | inl (RuntimeError e) => Some ([Reply ("Error en la IA: " +:+ e)], w1)
    | inr (VStr assistant_msg) =>
        Some ([Reply assistant_msg], push_history cfg key "assistant" assistant_msg 10 w1)
    | inr _ => None
    end.
Proof.
  intros key earlier prompt w1. unfold chat_cmd. rewrite Harg. cbv zeta.
  fold key. fold w1.
  assert (Hprompt : chat_prompt (history_of key w1) user_msg = prompt).
  { subst w1 prompt earlier. rewrite history_of_push_positive by lia.
    destruct (last_n_snoc (Z.to_nat 10) (history_of key w)
                {| role := "user"; content := user_msg |}) as (pre & -> & ->); [lia|].
    unfold chat_prompt. rewrite foldl_history_snoc.
    unfold history_line at 2. cbn [role content]. rewrite String.eqb_refl.
    change (Z.to_nat 10 - 1)%nat with 9%nat.
    by rewrite !str_app_assoc. }
  by rewrite Hprompt.
Qed.

(** X19. What [chat_cmd] records.  The message is in the history before the
    backend is asked and stays there when the generation fails; when it
    succeeds the history ends with the message and then the reply.  The
    history of the chat never exceeds 10 entries, no other chat's history
    changes, nor do the reports or the moderated chats, and the document
    is on disk. *)
Theorem chat_cmd_records chat_id text user_msg backend w out w'
    (Harg : command_arg text = Some user_msg)
    (Hrun : chat_cmd cfg chat_id text backend w = Some (out, w')) :
  let key := pretty chat_id in
  let asked := {| role := "user"; content := user_msg |} in
  ((∃ e, out = [Reply ("Error en la IA: " +:+ e)] ∧
         history_of key w' = last_n 10 (history_of key w ++ [asked])) ∨
   (∃ s pre, out = [Reply s] ∧
             history_of key w' = pre ++ [asked; {| role := "assistant"; content := s |}])) ∧
  (length (history_of key w') ≤ 10)%nat ∧
  (∀ other, other ≠ chat_id → history_of (pretty other) w' = history_of (pretty other) w) ∧
  reports_of (STATE w') = reports_of (STATE w) ∧
  chats_of (STATE w') = chats_of (STATE w) ∧
  in_sync cfg w'.
Proof.
  intros key asked. unfold chat_cmd in Hrun. rewrite Harg in Hrun. cbv zeta in Hrun.
  fold key in Hrun.
  set (w1 := push_history cfg key "user" user_msg 10 w) in *.
  assert (Hw1 : history_of key w1 = last_n 10 (history_of key w ++ [asked])).
  { subst w1. by rewrite history_of_push_positive by lia. }
  assert (Hother : ∀ other r c w0, other ≠ chat_id →
            history_of (pretty other) (push_history cfg key r c 10 w0)
            = history_of (pretty other) w0).
  { intros other r c w0 Hne. apply history_of_push_ne. subst key.
    intros Heq. by apply Hne, (inj pretty). }
  destruct (hf_generate_text cfg (backend _)) as [[e]|v]; [|destruct v; try done];
    injection Hrun as <- <-.
  - split_and!.
    + left. by exists e.
    + rewrite Hw1, length_last_n. lia.
    + intros other Hne. by apply Hother.
    + done.
    + done.
    + apply persist_in_sync.
  - split_and!.
    + right. rewrite history_of_push_positive, Hw1 by lia.
      destruct (last_n_snoc 10 (history_of key w) asked) as (p & -> & _); [lia|].
      destruct (last_n_snoc (Z.to_nat 10) (p ++ [asked])
                  {| role := "assistant"; content := s |}) as (p' & -> & ->); [lia|].
      destruct (last_n_snoc (Z.to_nat 10 - 1) p asked) as (p'' & -> & _); [lia|].
      exists s, p''. split; [done|]. by rewrite <- app_assoc.
    + rewrite history_of_push_positive, length_last_n by lia. lia.
    + intros other Hne. rewrite Hother by done. by apply Hother.
    + done.
    + done.
    + apply persist_in_sync.
Qed.

End Further.

(** * Evaluations

    The theorems applied to, and the model run on, concrete inputs, with
    [sample_runtime] as the runtime. *)

Section Evaluations.
#[local] Existing Instance sample_runtime.

Ltac by_evaluation :=
  match goal with |- ?P => refine (@bool_decide_unpack P _ _); vm_compute; exact I end.

(** [moderation_flag_algebra] on the chats [[5; 7]]: removing 5 clears its flag. *)
Lemma moderation_flag_algebra_witness :
  NoDup (chats_of (STATE one_pending)) ∧
  is_chat_moderated 5
    (remove_moderated_chat open_config 5 one_pending) = false.
Proof.
  assert (Hnd : NoDup (chats_of (STATE one_pending))) by by_evaluation.
  split; [exact Hnd|].
  destruct (moderation_flag_algebra open_config one_pending 5) as (_ & _ & _ & _ & Hremove & _).
  exact (proj1 (Hremove Hnd)).
Defined.

(** C8, counterexample. On the list [[5; 5]], [remove_moderated_chat 5]
    takes out the first 5 only: chat 5 is still moderated afterwards. *)
Lemma remove_leaves_duplicate :
  chats_of (STATE twice_moderated) = [5; 5] ∧
  chats_of (STATE (remove_moderated_chat open_config 5 twice_moderated))
    = [5] ∧
  is_chat_moderated 5
    (remove_moderated_chat open_config 5 twice_moderated) = true.
Proof. by vm_compute. Qed.

(** [report_status_transition] on an approval by user 1, the configured
    admin: the pending report becomes "provided". *)
Lemma report_status_transition_witness :
  str_split ":" (default "" (q_data (approve_by alice))) = ["recovery"; "0123abcd"; "approve"] ∧
  find_report "0123abcd" (reports_of (STATE one_pending)) = Some (0%nat, pending_report) ∧
  ∃ r', reports_of (STATE (recovery_callback_handler admin1_config
                             (approve_by alice) clock one_pending).2) !! 0%nat = Some r' ∧
        r_status r' = "provided".
Proof.
  assert (Hdata : str_split ":" (default "" (q_data (approve_by alice)))
                  = ["recovery"; "0123abcd"; "approve"]) by reflexivity.
  assert (Hfind : find_report "0123abcd" (reports_of (STATE one_pending))
                  = Some (0%nat, pending_report)) by (vm_compute; reflexivity).
  split; [exact Hdata|]. split; [exact Hfind|].
  destruct (report_status_transition admin1_config
              (approve_by alice) clock one_pending _ _ _ _ Hdata Hfind)
    as (_ & _ & Hresolve).
  destruct Hresolve as (r' & Hr' & Hstatus & _); [reflexivity | vm_compute; reflexivity |].
  exists r'. split; [exact Hr' | exact Hstatus].
Defined.

(** C1, counterexample. With [RECOVERY_ADMIN_IDS] set to ["1"], user 2
    approves the pending report: the guard turns the click away and the
    report stays pending, it does not become "provided". *)
Lemma unauthorized_click_leaves_pending :
  str_split ":" (default "" (q_data (approve_by bob))) = ["recovery"; "0123abcd"; "approve"] ∧
  find_report "0123abcd" (reports_of (STATE one_pending)) = Some (0%nat, pending_report) ∧
  r_status pending_report = "pending" ∧
  recovery_callback_handler admin1_config (approve_by bob) clock one_pending
    = (CbUnauthorized, one_pending) ∧
  r_status <$> reports_of (STATE (recovery_callback_handler admin1_config
                                    (approve_by bob) clock one_pending).2) !! 0%nat
    = Some "pending".
Proof. by vm_compute. Qed.

(** [report_ids_unique] on a run whose two draws differ. *)
Lemma report_ids_unique_witness :
  NoDup (report_ids (world_of DEFAULT_STATE)) ∧
  fresh_draws open_config distinct_reports (world_of DEFAULT_STATE) ∧
  NoDup (report_ids (run open_config distinct_reports
                       (world_of DEFAULT_STATE))).
Proof.
  assert (Hnd : NoDup (report_ids (world_of DEFAULT_STATE))) by by_evaluation.
  assert (Hfresh : fresh_draws open_config distinct_reports
                     (world_of DEFAULT_STATE)).
  { simpl. split_and!; try exact I; by_evaluation. }
  split; [exact Hnd|]. split; [exact Hfresh|].
  exact (proj1 (report_ids_unique open_config distinct_reports
                  (world_of DEFAULT_STATE) Hnd Hfresh)).
Defined.

(** C2, counterexample. Two reports whose uuid draws agree on the first
    eight hex digits: the state is reachable and holds the id twice. *)
Lemma report_ids_collide :
  let w := run open_config colliding_reports (world_of DEFAULT_STATE) in
  reachable open_config w ∧
  report_ids w = ["01234567"; "01234567"] ∧
  ¬ NoDup (report_ids w) ∧
  r_id (_create_report open_config bob "https://t.me/canal_b" uuid_b
          "2024-05-02T11:30:00"
          (step open_config
             (OpCreateReport alice "https://t.me/canal_a" uuid_a "2024-05-01T10:00:00")
             (world_of DEFAULT_STATE))).1
    ∈ report_ids (step open_config
                    (OpCreateReport alice "https://t.me/canal_a" uuid_a "2024-05-01T10:00:00")
                    (world_of DEFAULT_STATE)).
Proof.
  intros w. assert (Hids : report_ids w = ["01234567"; "01234567"]) by (by vm_compute).
  split_and!.
  - apply reachable_run. apply reachable_init.
  - exact Hids.
  - rewrite Hids. intros [Hnin _]%NoDup_cons. apply Hnin, list_elem_of_here.
  - by_evaluation.
Qed.


(** The text [save_state] writes for that state, and what [load_state]
    makes of texts written by hand: key order and white space do not
    matter, the last of two equal keys is kept, an absent key stays
    absent, and a text that is not a JSON document of the state is not
    read. *)
Example state_file_text :
  json_dump_state (STATE one_pending) =
    "{" +:+ nl +:+
    "  " +:+ quoted "moderated_chats" +:+ ": [" +:+ nl +:+
    "    5," +:+ nl +:+
    "    7" +:+ nl +:+
    "  ]," +:+ nl +:+
    "  " +:+ quoted "histories" +:+ ": {}," +:+ nl +:+
    "  " +:+ quoted "reports" +:+ ": [" +:+ nl +:+
    "    {" +:+ nl +:+
    "      " +:+ quoted "id" +:+ ": " +:+ quoted "0123abcd" +:+ "," +:+ nl +:+
    "      " +:+ quoted "user_id" +:+ ": 40," +:+ nl +:+
    "      " +:+ quoted "user_name" +:+ ": " +:+ quoted "carol" +:+ "," +:+ nl +:+
    "      " +:+ quoted "channel_url" +:+ ": " +:+ quoted "https://t.me/mi_canal" +:+ "," +:+ nl +:+
    "      " +:+ quoted "created_at" +:+ ": " +:+ quoted "2024-05-01T10:00:00Z" +:+ "," +:+ nl +:+
    "      " +:+ quoted "status" +:+ ": " +:+ quoted "pending" +:+ "," +:+ nl +:+
    "      " +:+ quoted "response_by" +:+ ": null," +:+ nl +:+
    "      " +:+ quoted "response_at" +:+ ": null" +:+ nl +:+
    "    }" +:+ nl +:+
    "  ]" +:+ nl +:+
    "}" ∧
  json_load_state ("{" +:+ quoted "reports" +:+ ":[], " +:+ quoted "moderated_chats" +:+
                   ": [ -3 ,4], " +:+ quoted "moderated_chats" +:+ ": [8]}" +:+ nl)
    = Some {| moderated_chats := Some [8]; histories := None; reports := Some [] |} ∧
  json_load_state ("{" +:+ quoted "histories" +:+ ": {" +:+ quoted "9" +:+ ": [{" +:+
                   quoted "content" +:+ ": " +:+ quoted "a\nb\u00e9" +:+ ", " +:+
                   quoted "role" +:+ ": " +:+ quoted "user" +:+ "}]}}")
    = Some {| moderated_chats := None;
              histories := Some {["9" := [ {| role := "user";
                                              content := "a" +:+ nl +:+ "bé" |} ]]};
              reports := None |} ∧
  json_read (quoted "\ud83d\ude00 \u20ac \/") = Some (JStr "😀 € /") ∧
  json_read (quoted "\ud83d") = None ∧
  json_load_state "" = None ∧
  json_load_state "[]" = None ∧
  json_load_state "{} {}" = None ∧
  json_load_state ("{" +:+ quoted "reports" +:+ ": [],}") = None ∧
  json_load_state ("{" +:+ quoted "moderated_chats" +:+ ": [1.5]}") = None.
Proof. by vm_compute. Qed.

(** [resolution_frame] on an approval of the pending report by user 2,
    nobody being configured as admin. *)
Lemma resolution_frame_witness :
  let r' := resolve "approve" 2 clock pending_report in
  let w' := (recovery_callback_handler open_config
               (approve_by bob) clock one_pending).2 in
  (recovery_callback_handler open_config
     (approve_by bob) clock one_pending).1 = CbResolved r' ∧
  ∃ i r, reports_of (STATE one_pending) !! i = Some r ∧
         reports_of (STATE w') = <[i := r']> (reports_of (STATE one_pending)) ∧
         r_id r' = r_id r ∧
         moderated_chats (STATE w') = moderated_chats (STATE one_pending) ∧
         histories (STATE w') = histories (STATE one_pending).
Proof.
  intros r' w'.
  assert (Hres : (recovery_callback_handler open_config
                    (approve_by bob) clock one_pending).1 = CbResolved r')
    by (vm_compute; reflexivity).
  split; [exact Hres|].
  destruct (resolution_frame open_config (approve_by bob) clock
              one_pending r' Hres)
    as (i & r & Hi & _ & Hreports & _ & Hid & _ & _ & _ & _ & _ & _ & _ & Hchats & Hhist).
  exists i, r. repeat split; assumption.
Defined.

(** C6, counterexample. A body whose "generated_text" is the number 5 makes
    [hf_generate_text] return 5, which is not a string; and a dict that
    carries an "error" field holding [null] raises nothing. *)
Lemma generation_client_not_a_string :
  json_loads body_number
    = Some (VList [VDict {["generated_text" := VInt 5]}]) ∧
  hf_generate_text open_config body_number = inr (VInt 5) ∧
  is_str (VInt 5) = false ∧
  json_loads body_null_error
    = Some (VDict (<["error" := VNull]> {["generated_text" := VStr "hola"]})) ∧
  hf_generate_text open_config body_null_error = inr (VStr "hola").
Proof. by vm_compute. Qed.

(** [admin_guard_bypass] with [RECOVERY_ADMIN_IDS] unset: the set is empty
    and user 2, whom nobody listed, resolves the pending report: the state
    left behind holds it as "provided", answered by user 2. *)
Lemma admin_guard_bypass_witness :
  _admin_ids_set open_config = ∅ ∧
  unauthorized open_config 2 = false ∧
  ∃ r',
    reports_of (STATE (recovery_callback_handler open_config (approve_by bob) clock
                         one_pending).2) !! 0%nat = Some r' ∧
    r_status r' = "provided" ∧
    r_response_by r' = Some 2 ∧
    r_id r' = "0123abcd".
Proof.
  destruct (admin_guard_bypass open_config) as (_ & _ & Hunset & Hguard & Hbypass & _).
  assert (Hempty : _admin_ids_set open_config = ∅) by (apply Hunset; by left).
  split; [exact Hempty|]. split.
  - destruct (unauthorized open_config 2) eqn:Hun; [|reflexivity].
    apply Hguard in Hun as [Hne _]. by destruct Hne.
  - destruct (Hbypass Hempty (approve_by bob) clock one_pending "0123abcd" "approve"
                0%nat pending_report) as (r' & _ & Hat & Hyes & _ & _ & Hby & _ & Hid & _);
      [by vm_compute..|].
    exists r'. split; [exact Hat|]. split; [by apply Hyes|]. split; [exact Hby|exact Hid].
Defined.

(** The tokens of ["1, x,, 3 "]: two integers, one word, one blank. *)
Example admin_ids_mixed_tokens :
  elements (_admin_ids_set (sample_config (Some "1, x,, 3 "))) = [3; 1] ∧
  unauthorized (sample_config (Some "1, x,, 3 ")) 2 = true ∧
  unauthorized (sample_config (Some "1, x,, 3 ")) 3 = false.
Proof. by vm_compute. Qed.

(** [report_lookup] on a status query for an id that no report has, and
    for the id of the pending report. *)
Lemma report_lookup_witness :
  (recovery_status (Some "/recovery_status ffffffff") one_pending).1 = "Reporte no encontrado." ∧
  (recovery_status (Some "/recovery_status 0123abcd") one_pending).1 = status_reply pending_report ∧
  reports_of (STATE (recovery_status (Some "/recovery_status 0123abcd") one_pending).2)
    = [pending_report] ∧
  recovery_callback_handler admin1_config (approve_by bob) clock one_pending
    = (CbUnauthorized, one_pending).
Proof.
  split_and!.
  - destruct (report_lookup open_config "ffffffff" one_pending) as (_ & _ & Hquery & _).
    destruct (Hquery (Some "/recovery_status ffffffff") "/recovery_status" "ffffffff")
      as [Hreply _]; [by vm_compute..|].
    rewrite Hreply. by vm_compute.
  - destruct (report_lookup open_config "0123abcd" one_pending) as (_ & _ & Hquery & _).
    destruct (Hquery (Some "/recovery_status 0123abcd") "/recovery_status" "0123abcd")
      as [Hreply _]; [by vm_compute..|].
    rewrite Hreply. by vm_compute.
  - destruct (report_lookup open_config "0123abcd" one_pending) as (_ & _ & _ & Hsame & _).
    apply Hsame.
  - destruct (report_lookup admin1_config "0123abcd" one_pending)
      as (_ & _ & _ & _ & _ & Hrejected & _).
    apply (Hrejected (approve_by bob) clock "approve"); by vm_compute.
Defined.

(** Against the claim as worded: the report with id 0123abcd exists, yet
    for a clicker outside the admin list the callback finds nothing and
    answers "not authorized"; and for a listed clicker the callback path
    rewrites the report it found. *)
Example callback_lookup_needs_authorization :
  (∃ r, r ∈ reports_of (STATE one_pending) ∧ r_id r = "0123abcd") ∧
  find_report "0123abcd" (reports_of (STATE one_pending)) = Some (0%nat, pending_report) ∧
  str_split ":" (default "" (q_data (approve_by bob))) = ["recovery"; "0123abcd"; "approve"] ∧
  (recovery_callback_handler admin1_config (approve_by bob) clock one_pending).1
    = CbUnauthorized ∧
  callback_alert CbUnauthorized ≠ callback_alert CbNotFound ∧
  (∀ r, (recovery_callback_handler admin1_config (approve_by bob) clock one_pending).1
          ≠ CbResolved r) ∧
  unauthorized admin1_config (u_id (q_from_user (approve_by alice))) = false ∧
  reports_of (STATE one_pending) = [pending_report] ∧
  reports_of (STATE (recovery_callback_handler admin1_config (approve_by alice) clock
                       one_pending).2)
    ≠ [pending_report].
Proof.
  split; [exists pending_report; split; [apply list_elem_of_here|reflexivity]|].
  by vm_compute.
Qed.


(** [generation_client_result] on the usual response shape. *)
Lemma generation_client_result_witness :
  json_loads body_text = Some (VList [VDict {["generated_text" := VStr "hola"]}]) ∧
  ∃ v, hf_generate_text open_config body_text = inr v ∧ v ≠ VNull ∧ is_str v = true.
Proof.
  assert (Hbody : json_loads body_text
                  = Some (VList [VDict {["generated_text" := VStr "hola"]}]))
    by (by vm_compute).
  split; [exact Hbody|].
  destruct (generation_client_result open_config body_text) as [_ Hkey].
  destruct (Hkey "hf_key") as (_ & _ & Hvalue); [reflexivity | discriminate |].
  destruct (Hvalue _ Hbody) as (v & Hv & Hnull & _ & _ & _ & Hstr); [discriminate|].
  exists v. split; [exact Hv|]. split; [exact Hnull|]. apply Hstr. by vm_compute.
Defined.

(** The error paths of [hf_generate_text], and the shapes without text. *)
Example generation_client_errors :
  hf_generate_text open_config body_error
    = inl (RuntimeError "Hugging Face error: Model is loading") ∧
  hf_generate_text open_config "<html>"
    = inl (RuntimeError "Hugging Face returned non-JSON response: <html>") ∧
  (∃ msg, hf_generate_text
            {| env_STATE_FILE := None; env_HUGGINGFACE_API_KEY := None;
               env_RECOVERY_CHAT_ID := None; env_RECOVERY_ADMIN_IDS := None |} body_text
          = inl (RuntimeError msg)) ∧
  hf_generate_text open_config "[]" = inr (VStr "[]").
Proof. split_and!; try (by vm_compute). by eexists. Qed.

(** An eleventh entry pushes the oldest one out. *)
Example push_history_drops_oldest :
  history_of "9" (push_history open_config "9" "user" "k" 10 full_history)
    = said <$> ["b"; "c"; "d"; "e"; "f"; "g"; "h"; "i"; "j"; "k"].
Proof. by vm_compute. Qed.

End Evaluations.

(** * Evaluations of the further properties *)

Section FurtherEvaluations.
#[local] Existing Instance sample_runtime.
#[local] Existing Instance sample_text.

Ltac evaluated :=
  match goal with |- ?P => refine (@bool_decide_unpack P _ _); vm_compute; exact I end.

(** [push_history_positive_limit] with a limit of 3 on a history of ten. *)
Lemma push_history_positive_limit_witness :
  1 ≤ 3 ∧
  history_of "9" (push_history open_config "9" "user" "k" 3 full_history)
    = said <$> ["i"; "j"; "k"].
Proof.
  split; [lia|].
  destruct (push_history_positive_limit open_config "9" "user" "k" 3 full_history)
    as (Hnew & _); [lia|].
  rewrite Hnew. by vm_compute.
Defined.

(** [push_history_nonpositive_limit] with a limit of -20 on a history of
    ten entries: the push leaves it empty. *)
Lemma push_history_nonpositive_limit_witness :
  -20 ≤ 0 ∧
  length (history_of "9" full_history) = 10%nat ∧
  history_of "9" (push_history open_config "9" "user" "k" (-20) full_history) = [].
Proof.
  split; [lia|]. split; [by vm_compute|].
  destruct (push_history_nonpositive_limit open_config "9" "user" "k" (-20) full_history)
    as (_ & _ & _ & Hempty); [lia|].
  apply Hempty. by vm_compute.
Defined.

(** [histories_stay_bounded] on a run from the default document. *)
Lemma histories_stay_bounded_witness :
  histories_bounded (world_of DEFAULT_STATE) ∧
  histories_bounded
    (run open_config (OpPushHistory "9" "user" "hola" :: distinct_reports)
       (world_of DEFAULT_STATE)).
Proof.
  assert (Hbound : histories_bounded (world_of DEFAULT_STATE)).
  { intros key h Hh. by vm_compute in Hh. }
  split; [exact Hbound|]. exact (histories_stay_bounded open_config _ _ Hbound).
Defined.

(** [report_only_ever_answered] on the pending report and a denial. *)
Lemma report_only_ever_answered_witness :
  reports_of (STATE one_pending) !! 0%nat = Some pending_report ∧
  ∃ r', reports_of (STATE (run open_config
                             [OpRecoveryCallback
                                {| q_data := Some "recovery:0123abcd:deny"; q_from_user := bob;
                                   q_message_text := "Nuevo reporte" |} clock]
                             one_pending)) !! 0%nat = Some r' ∧
        same_request pending_report r'.
Proof.
  assert (Hi : reports_of (STATE one_pending) !! 0%nat = Some pending_report) by reflexivity.
  split; [exact Hi|].
  destruct (report_only_ever_answered open_config
              [OpRecoveryCallback
                 {| q_data := Some "recovery:0123abcd:deny"; q_from_user := bob;
                    q_message_text := "Nuevo reporte" |} clock]
              one_pending 0%nat pending_report Hi) as (r' & Hr' & Hsame & _).
  exists r'. split; [exact Hr' | exact Hsame].
Defined.

(** [lifecycle_is_invariant] on a run from the default document. *)
Lemma lifecycle_is_invariant_witness :
  Forall in_lifecycle (reports_of (STATE (world_of DEFAULT_STATE))) ∧
  Forall in_lifecycle
    (reports_of (STATE (run open_config distinct_reports (world_of DEFAULT_STATE)))).
Proof.
  assert (Hall : Forall in_lifecycle (reports_of (STATE (world_of DEFAULT_STATE))))
    by apply Forall_nil_2.
  split; [exact Hall|]. exact (lifecycle_is_invariant open_config _ _ Hall).
Defined.

(** [shadowed_report_is_stuck] on the two reports that share an id: an
    approval aimed at the id leaves the second report as it is. *)
Lemma shadowed_report_is_stuck_witness :
  let w := run open_config colliding_reports (world_of DEFAULT_STATE) in
  let click := OpRecoveryCallback
                 {| q_data := Some "recovery:01234567:approve"; q_from_user := alice;
                    q_message_text := "Nuevo reporte" |} clock in
  ∃ r_first r,
    reports_of (STATE w) !! 0%nat = Some r_first ∧
    reports_of (STATE w) !! 1%nat = Some r ∧
    r_id r_first = r_id r ∧
    reports_of (STATE (run open_config [click; click] w)) !! 1%nat = Some r ∧
    r_status r = "pending".
Proof.
  intros w click.
  destruct (reports_of (STATE w)) as [|r_first [|r rest]] eqn:Hreports;
    [by vm_compute in Hreports..|].
  assert (Hid : r_id r_first = r_id r).
  { assert (Hids : r_id <$> reports_of (STATE w) = ["01234567"; "01234567"]) by (by vm_compute).
    rewrite Hreports in Hids. simpl in Hids. congruence. }
  assert (Hpending : r_status r = "pending").
  { assert (Hst : r_status <$> reports_of (STATE w) = ["pending"; "pending"]) by (by vm_compute).
    rewrite Hreports in Hst. simpl in Hst. congruence. }
  exists r_first, r.
  assert (H0 : reports_of (STATE w) !! 0%nat = Some r_first) by (by rewrite Hreports).
  assert (H1 : reports_of (STATE w) !! 1%nat = Some r) by (by rewrite Hreports).
  rewrite <- Hreports.
  destruct (shadowed_report_is_stuck open_config [click; click] w 0%nat 1%nat r_first r)
    as [Hstuck _]; [lia|done..|].
  by split_and!.
Defined.


(** [keyboard_data_round_trip] on a hexadecimal id. *)
Lemma keyboard_data_round_trip_witness :
  str_has ":" "0123abcd" = false ∧
  (λ button, str_split ":" button.2) <$> recovery_keyboard "0123abcd"
    = [ ["recovery"; "0123abcd"; "approve"]; ["recovery"; "0123abcd"; "deny"] ].
Proof.
  split; [reflexivity|]. apply keyboard_data_round_trip. reflexivity.
Defined.

(** [report_then_click]: Alice reports a channel, Bob clicks "No proveer";
    the state then holds the earlier report and hers, denied. *)
Lemma report_then_click_witness :
  command_arg (Some "/report_recovery  https://t.me/mi_canal ") = Some "https://t.me/mi_canal" ∧
  int_of_str "-100200300" = Some (-100200300) ∧
  ∃ answer,
    reports_of (STATE
      (recovery_callback_handler notify_config
         {| q_data := Some "recovery:01234567:deny"; q_from_user := bob;
            q_message_text := "Nuevo reporte" |} clock
         (report_recovery notify_config alice (Some "/report_recovery  https://t.me/mi_canal ")
            uuid_a "2024-05-01T10:00:00" one_pending).2).2)
      = [pending_report; answer] ∧
    r_status answer = "denied".
Proof.
  assert (Harg : command_arg (Some "/report_recovery  https://t.me/mi_canal ")
                 = Some "https://t.me/mi_canal") by (by vm_compute).
  assert (Hint : int_of_str "-100200300" = Some (-100200300)) by (by vm_compute).
  split; [exact Harg|]. split; [exact Hint|].
  destruct (report_then_click notify_config alice
              (Some "/report_recovery  https://t.me/mi_canal ") "https://t.me/mi_canal"
              uuid_a "2024-05-01T10:00:00" one_pending "-100200300" (-100200300) bob clock
              "Nuevo reporte" Harg)
    as (_ & _ & _ & _ & Hdeny); [reflexivity|done|exact Hint|evaluated|reflexivity|by vm_compute|].
  exact Hdeny.
Defined.

(** [moderation_switch] on a message that spells the word with capitals. *)
Lemma moderation_switch_witness :
  NoDup (chats_of (STATE one_pending)) ∧
  str_lower "Hola PalabraProhibida1!" = "hola " +:+ "palabraprohibida1" +:+ "!" ∧
  message_handler 9 (Some banned_message)
    (moderate_on open_config "supergroup" 9 (Some ADMINISTRATOR) one_pending).2
    = [DeleteMessage 9 77] ∧
  message_handler 9 (Some banned_message) one_pending = [].
Proof.
  assert (Hnd : NoDup (chats_of (STATE one_pending))) by evaluated.
  assert (Hocc : str_lower "Hola PalabraProhibida1!"
                 = "hola " +:+ "palabraprohibida1" +:+ "!") by reflexivity.
  split; [exact Hnd|]. split; [exact Hocc|].
  destruct (moderation_switch open_config "supergroup" 9 one_pending banned_message
              "Hola PalabraProhibida1!" "palabraprohibida1" "hola " "!")
    as (Hon & _ & _); [done|exact Hnd|reflexivity|done|apply list_elem_of_here|exact Hocc|].
  split; [exact Hon|]. by vm_compute.
Defined.

(** [script_file_name_is_fixed] on a request for a Python script: the
    document is named script.py and holds the path of the temporary file. *)
Lemma script_file_name_is_fixed_witness :
  generate_script open_config (Some "/generate_script Python | suma dos numeros")
    backend_text "/tmp/tmpab12cd.py" true
    = Done [Reply "Generando script en Python con Mistral...";
            Reply "Aquí está el código generado (también te lo adjunto como archivo):";
            SendDocument "script.py" "/tmp/tmpab12cd.py"] ∧
  "script.py" ∈ ["script.py"; "script.js"; "script.ts"; "script.sh"; "script.go";
                 "script.java"; "script.rb"; "script.php"; "script.txt"] ∧
  hf_generate_text open_config
    (backend_text (script_prompt "Python" "suma dos numeros")) = inr (VStr "hola").
Proof.
  assert (Hrun : generate_script open_config (Some "/generate_script Python | suma dos numeros")
                   backend_text "/tmp/tmpab12cd.py" true
                 = Done [Reply "Generando script en Python con Mistral...";
                         Reply "Aquí está el código generado (también te lo adjunto como archivo):";
                         SendDocument "script.py" "/tmp/tmpab12cd.py"]) by (by vm_compute).
  split; [exact Hrun|].
  destruct (script_file_name_is_fixed open_config _ _ _ _ _ "script.py" "/tmp/tmpab12cd.py"
              (or_introl Hrun))
    as (Hname & _); [|split; [exact Hname|by vm_compute]].
  apply list_elem_of_further, list_elem_of_further, list_elem_of_here.
Defined.

(** [generate_script_crash]: the backend answers with a number. *)
Lemma generate_script_crash_witness :
  generate_script open_config (Some "/generate_script a | b") backend_number
    "/tmp/tmpab12cd.txt" true
    = Crashed [Reply "Generando script en a con Mistral...";
               Reply "Aquí está el código generado (también te lo adjunto como archivo):"].
Proof.
  apply (generate_script_crash open_config). exists "a | b", (VInt 5). by vm_compute.
Defined.

(** [chat_prompt_repeats_message]: the prompt of a second message to a
    chat whose history holds one exchange. *)
Lemma chat_prompt_repeats_message_witness :
  command_arg (Some "/chat y tu?") = Some "y tu?" ∧
  ∀ backend,
    chat_cmd open_config 9 (Some "/chat y tu?") backend greeted =
      match hf_generate_text open_config
              (backend ("Eres un asistente conversacional útil y conciso." +:+ nl +:+ nl +:+
                        "Usuario: buenas" +:+ nl +:+ "Asistente: hola" +:+ nl +:+
                        "Usuario: y tu?" +:+ nl +:+ nl +:+
                        "Usuario: y tu?" +:+ nl +:+ "Asistente:")) with
      | inl (RuntimeError e) =>
          Some ([Reply ("Error en la IA: " +:+ e)],
                push_history open_config "9" "user" "y tu?" 10 greeted)
      | inr (VStr assistant_msg) =>
          Some ([Reply assistant_msg],
                push_history open_config "9" "assistant" assistant_msg 10
                  (push_history open_config "9" "user" "y tu?" 10 greeted))
      | inr _ => None
      end.
Proof.
  assert (Harg : command_arg (Some "/chat y tu?") = Some "y tu?") by (by vm_compute).
  split; [exact Harg|]. intros backend.
  exact (chat_prompt_repeats_message open_config 9 (Some "/chat y tu?") "y tu?" backend
           greeted Harg).
Defined.

(** [chat_cmd_records]: a first message to chat 9 and its reply. *)
Lemma chat_cmd_records_witness :
  command_arg (Some "/chat buenas") = Some "buenas" ∧
  ∃ w', chat_cmd open_config 9 (Some "/chat buenas") backend_text (world_of DEFAULT_STATE)
        = Some ([Reply "hola"], w') ∧
        history_of "9" w' = [ {| role := "user"; content := "buenas" |};
                              {| role := "assistant"; content := "hola" |} ].
Proof.
  assert (Harg : command_arg (Some "/chat buenas") = Some "buenas") by (by vm_compute).
  split; [exact Harg|].
  destruct (chat_cmd open_config 9 (Some "/chat buenas") backend_text (world_of DEFAULT_STATE))
    as [[out w']|] eqn:Hrun; [|by vm_compute in Hrun].
  assert (Hout : out = [Reply "hola"]).
  { vm_compute in Hrun. by injection Hrun as <- _. }
  subst out. exists w'. split; [reflexivity|].
  destruct (chat_cmd_records open_config 9 (Some "/chat buenas") "buenas" backend_text
              (world_of DEFAULT_STATE) _ w' Harg Hrun) as (_ & _ & _ & _ & _ & _).
  vm_compute in Hrun. injection Hrun as <-. by vm_compute.
Defined.

(** The handlers on the edges of their inputs. *)
Example handlers_on_edges :
  generate_script open_config (Some "/generate_script") backend_text "/tmp/tmpab12cd.txt" true
    = Done [Reply ("Uso: /generate_script <lenguaje> | <descripcion breve>" +:+ nl +:+
                   "Ej: /generate_script python | Lee un CSV y resume columnas")] ∧
  generate_script open_config (Some "/generate_script Go | b") backend_text
    "/tmp/tmpab12cd.go" false
    = Done [Reply "Generando script en Go con Mistral...";
            Reply "Aquí está el código generado (también te lo adjunto como archivo):";
            Reply ("No se pudo adjuntar el archivo, te envío el código en texto:" +:+
                   nl +:+ nl +:+ "hola")] ∧
  generate_script open_config (Some "/generate_script a | b") backend_number
    "/tmp/tmpab12cd.txt" true
    = Crashed [Reply "Generando script en a con Mistral...";
               Reply "Aquí está el código generado (también te lo adjunto como archivo):"] ∧
  chat_cmd open_config 9 (Some "/chat   ") backend_text one_pending
    = Some ([Reply "Uso: /chat <mensaje>"], one_pending) ∧
  chat_cmd open_config 9 (Some "/chat hola") backend_number one_pending = None ∧
  message_handler 5 (Some {| message_id := 1; m_text := None |}) one_pending = [] ∧
  message_handler 5 (Some banned_message) one_pending = [DeleteMessage 5 77] ∧
  (moderate_on open_config "private" 9 (Some OWNER) one_pending).2 = one_pending ∧
  (moderate_on open_config "group" 9 (Some MEMBER) one_pending).2 = one_pending.
Proof. by vm_compute. Qed.

End FurtherEvaluations.
